(** * Supplier scorecard variables

    A shallow embedding of
    [erpnext/buying/doctype/supplier_scorecard_variable/supplier_scorecard_variable.py]:
    the metric functions evaluated for a supplier scorecard period and the
    validation of a configured variable path.

    The relational store is a record of tables (lists of rows), an SQL
    statement [SELECT agg(e) FROM t1, ..., tn WHERE c] is the aggregate of [e]
    over the rows of the cross product that satisfy [c], and Python exceptions
    are the [Raise] results of an error monad.  Text columns compare by
    equality of strings, and amounts and quantities are exact rationals.

    A scorecard is a document of the store: its [supplier] is a link to a
    Supplier document.  Where that document is missing, every metric that
    fetches it raises [DoesNotExistError]. *)

From Stdlib Require Import ZArith QArith List Ascii String Bool Lia Btauto.
Import ListNotations.

Local Open Scope string_scope.
Local Open Scope list_scope.
Local Open Scope Z_scope.

(** ** Python results and exceptions *)

Module Py.

(** The exception classes the module and its collaborators raise. *)
Inductive exn_class : Type :=
| AttributeError
| ImportError
| ModuleNotFoundError
| ValueError
| TypeError
| DoesNotExistError
| ValidationError
| VariablePathNotFound.

Record exn : Type := mk_exn { exn_type : exn_class; exn_message : string }.

Inductive result (A : Type) : Type :=
| Ok (a : A)
| Raise (e : exn).

Arguments Ok {A} a.
Arguments Raise {A} e.

Definition bind {A B : Type} (r : result A) (k : A -> result B) : result B :=
  match r with
  | Ok a => k a
  | Raise e => Raise e
  end.

Definition exn_class_eqb (a b : exn_class) : bool :=
  match a, b with
  | AttributeError, AttributeError
  | ImportError, ImportError
  | ModuleNotFoundError, ModuleNotFoundError
  | ValueError, ValueError
  | TypeError, TypeError
  | DoesNotExistError, DoesNotExistError
  | ValidationError, ValidationError
  | VariablePathNotFound, VariablePathNotFound => true
  | _, _ => false
  end.

(** [class VariablePathNotFound(frappe.ValidationError)], and
    [ModuleNotFoundError] is a subclass of [ImportError]; the other classes
    are unrelated.  [issubclass c c'] is what an [except c'] clause tests. *)
Definition issubclass (c c' : exn_class) : bool :=
  exn_class_eqb c c' ||
  match c, c' with
  | VariablePathNotFound, ValidationError => true
  | ModuleNotFoundError, ImportError => true
  | _, _ => false
  end.

(** *** Dates

    [datetime.date] with the proleptic Gregorian ordinal of CPython's
    [datetime] module; the difference of two dates is a [timedelta] whose
    [days] is the difference of the ordinals. *)

Record date : Type := mk_date { year : Z; month : Z; day : Z }.

Definition is_leap (y : Z) : bool :=
  (y mod 4 =? 0) && (negb (y mod 100 =? 0) || (y mod 400 =? 0)).

Definition days_before_year (y : Z) : Z :=
  let y' := y - 1 in
  y' * 365 + y' / 4 - y' / 100 + y' / 400.

Definition days_in_month (y m : Z) : Z :=
  if (m =? 2) && is_leap y then 29
  else match m with
       | 1 => 31 | 2 => 28 | 3 => 31 | 4 => 30 | 5 => 31 | 6 => 30
       | 7 => 31 | 8 => 31 | 9 => 30 | 10 => 31 | 11 => 30 | 12 => 31
       | _ => -1
       end.

Definition days_before_month (y m : Z) : Z :=
  match m with
  | 1 => 0 | 2 => 31 | 3 => 59 | 4 => 90 | 5 => 120 | 6 => 151
  | 7 => 181 | 8 => 212 | 9 => 243 | 10 => 273 | 11 => 304 | 12 => 334
  | _ => -1
  end + (if (2 <? m) && is_leap y then 1 else 0).

Definition toordinal (d : date) : Z :=
  days_before_year (year d) + days_before_month (year d) (month d) + day d.

(** The dates [datetime.date] can construct. *)
Definition valid_date (d : date) : Prop :=
  1 <= year d <= 9999 /\ 1 <= month d <= 12 /\
  1 <= day d <= days_in_month (year d) (month d).

(** Calendar order: [a] is an earlier day than [b]. *)
Definition date_lt (a b : date) : Prop :=
  year a < year b \/
  (year a = year b /\
   (month a < month b \/ (month a = month b /\ day a < day b))).

(** [(a - b).days] *)
Definition sub_days (a b : date) : Z := toordinal a - toordinal b.

Definition date_leb (a b : date) : bool := toordinal a <=? toordinal b.
Definition date_ltb (a b : date) : bool := toordinal a <? toordinal b.

End Py.

Import Py.

Notation "x <- c1 ;; c2" := (bind c1 (fun x => c2))
  (at level 61, c1 at next level, right associativity).

(** ** The scorecard period *)

(** The document handed to every metric: [scorecard.supplier],
    [scorecard.start_date], [scorecard.end_date]. *)
Record Scorecard : Type := mk_scorecard {
  supplier : string;
  start_date : date;
  end_date : date
}.

(** [frappe.utils.getdate] on a value that already is a date. *)
Definition getdate (d : date) : date := d.

Definition get_total_workdays (scorecard : Scorecard) : Z :=
  let delta := sub_days (getdate (end_date scorecard)) (getdate (start_date scorecard)) in
  delta.

(** ** The relational store

    One record per table the queries read, with the columns they mention.
    Numeric columns ([Float], [Currency], [Int]) are [NOT NULL] in the
    framework's schema and hold exact decimals, here rationals; [name] is the
    primary key; the link of a receipt line to an order line is optional, and
    [NULL] there is [None]. *)

Module Supplier.
Record row : Type := mk { name : string }.
End Supplier.

Module PO.
Record row : Type := mk {
  name : string;
  supplier : string;
  docstatus : Z;
  transaction_date : date;
  total_qty : Q
}.
End PO.

Module POI.
Record row : Type := mk {
  name : string;
  parent : string;
  docstatus : Z;
  schedule_date : date;
  qty : Q;
  received_qty : Q;
  base_amount : Q
}.
End POI.

Module PR.
Record row : Type := mk {
  name : string;
  supplier : string;
  posting_date : date
}.
End PR.

Module PRI.
Record row : Type := mk {
  name : string;
  parent : string;
  docstatus : Z;
  purchase_order_item : option string;
  qty : Q;
  received_qty : Q;
  rejected_qty : Q;
  base_rate : Q;
  base_amount : Q
}.
End PRI.

Module RFQ.
Record row : Type := mk {
  name : string;
  transaction_date : date
}.
End RFQ.

Module RFQI.
Record row : Type := mk {
  name : string;
  parent : string;
  docstatus : Z
}.
End RFQI.

Module RFQS.
Record row : Type := mk {
  parent : string;
  supplier : string
}.
End RFQS.

Module SQ.
Record row : Type := mk {
  name : string;
  supplier : string;
  transaction_date : date
}.
End SQ.

Module SQI.
Record row : Type := mk {
  name : string;
  parent : string;
  docstatus : Z;
  request_for_quotation_item : option string
}.
End SQI.

(** A Supplier Score record: the manually entered sub-scores, [None] where
    nothing was entered. *)
Module SS.
Record row : Type := mk {
  name : string;
  compliance_of_service : option Q;
  quality_certificate : option Q;
  technological_infrastructure : option Q;
  financial_capacity : option Q;
  market_image : option Q;
  on_time_delivery : option Q;
  fast_response_to_urgent_requests : option Q;
  shipping_document : option Q;
  capacity_adequacy : option Q;
  payment_terms : option Q;
  competitive_pricing : option Q;
  on_time_offer : option Q;
  revised_offer : option Q;
  number_of_complaints : option Q;
  approach_to_complaints : option Q;
  quick_solution : option Q;
  effective_solution : option Q
}.
End SS.

Record database : Type := mk_database {
  tabSupplier : list Supplier.row;
  tabPurchase_Order : list PO.row;
  tabPurchase_Order_Item : list POI.row;
  tabPurchase_Receipt : list PR.row;
  tabPurchase_Receipt_Item : list PRI.row;
  tabRequest_for_Quotation : list RFQ.row;
  tabRequest_for_Quotation_Item : list RFQI.row;
  tabRequest_for_Quotation_Supplier : list RFQS.row;
  tabSupplier_Quotation : list SQ.row;
  tabSupplier_Quotation_Item : list SQI.row;
  tabSupplier_Score : list SS.row
}.

(** ** SQL *)

Module Sql.

(** [FROM a, b]: every pair of rows. *)
Definition cross {A B : Type} (a : list A) (b : list B) : list (A * B) :=
  list_prod a b.

(** [SELECT e FROM from WHERE where_], before aggregation. *)
Definition select {R A : Type} (e : R -> A) (from : list R) (where_ : R -> bool)
  : list A :=
  map e (filter where_ from).

(** [SUM(e)]: [NULL] over no rows. *)
Definition SUM (values : list Q) : option Q :=
  match values with
  | [] => None
  | _ :: _ => Some (fold_right Qplus 0%Q values)
  end.

(** [COUNT(e)] for an [e] that is never [NULL]. *)
Definition COUNT {A : Type} (values : list A) : Z :=
  Z.of_nat (List.length values).

(** [DATEDIFF(a, b)]: days from [b] to [a]. *)
Definition DATEDIFF (a b : date) : Z := toordinal a - toordinal b.

(** [d BETWEEN lo AND hi] *)
Definition BETWEEN (d lo hi : date) : bool :=
  date_leb lo d && date_leb d hi.

(** [col = s] for a nullable text column: never true on [NULL]. *)
Definition eq_nullable (col : option string) (s : string) : bool :=
  match col with
  | Some c => String.eqb c s
  | None => false
  end.

Definition Qlt_bool (a b : Q) : bool := negb (Qle_bool b a).

End Sql.

Import Sql.

Infix "**" := cross (at level 40, left associativity).

(** ** Python truth values of query results *)

(** [if not data: data = 0] on the result of [SUM]: [None] and zero are
    falsy. *)
Definition or_zero (data : option Q) : Q :=
  match data with
  | None => 0%Q
  | Some q => if Qeq_bool q 0 then 0%Q else q
  end.

(** [if not data: data = 0] on the result of [COUNT]. *)
Definition or_zero_int (data : Z) : Z :=
  if data =? 0 then 0 else data.

(** [x or 0] on an optional score field. *)
Definition or_0 (x : option Q) : Q := or_zero x.

(** ** The framework's document API *)

Module Frappe.

(** [frappe.throw(msg, exc)]; the default class is [ValidationError]. *)
Definition throw {A : Type} (msg : string) (exc : exn_class) : result A :=
  Raise (mk_exn exc msg).

(** [frappe.get_doc("Supplier", name)] *)
Definition get_doc_Supplier (db : database) (name : string)
  : result Supplier.row :=
  match find (fun s => String.eqb (Supplier.name s) name) (tabSupplier db) with
  | Some doc => Ok doc
  | None => Raise (mk_exn DoesNotExistError ("Supplier " ++ name ++ " not found")%string)
  end.

(** [frappe.db.exists("Supplier Score", name)] *)
Definition db_exists_Supplier_Score (db : database) (name : string) : bool :=
  existsb (fun r => String.eqb (SS.name r) name) (tabSupplier_Score db).

(** [frappe.db.get_value("Supplier Score", name, fields)]: the record's
    fields, [None] when there is no such record. *)
Definition db_get_value_Supplier_Score (db : database) (name : string)
  : option SS.row :=
  find (fun r => String.eqb (SS.name r) name) (tabSupplier_Score db).

(** Unpacking the value of [get_value] into variables: [None] is not
    iterable. *)
Definition unpack (v : option SS.row) : result SS.row :=
  match v with
  | Some r => Ok r
  | None => Raise (mk_exn TypeError "cannot unpack non-iterable NoneType object")
  end.

End Frappe.

Import Frappe.

(** ** The metric functions *)

Definition get_item_workdays (db : database) (scorecard : Scorecard) : result Q :=
  supplier <- get_doc_Supplier db (supplier scorecard) ;;
  let total_item_days :=
    SUM (select
      (fun '(po_item, po) =>
         (inject_Z (DATEDIFF (end_date scorecard) (POI.schedule_date po_item))
          * POI.qty po_item)%Q)
      (tabPurchase_Order_Item db ** tabPurchase_Order db)
      (fun '(po_item, po) =>
         String.eqb (PO.supplier po) (Supplier.name supplier)
         && Qlt_bool (POI.received_qty po_item) (POI.qty po_item)
         && BETWEEN (POI.schedule_date po_item) (start_date scorecard) (end_date scorecard)
         && String.eqb (POI.parent po_item) (PO.name po))) in
  Ok (or_zero total_item_days).

Definition get_total_cost_of_shipments (db : database) (scorecard : Scorecard)
  : result Q :=
  supplier <- get_doc_Supplier db (supplier scorecard) ;;
  let data :=
    SUM (select
      (fun '(po_item, po) => POI.base_amount po_item)
      (tabPurchase_Order_Item db ** tabPurchase_Order db)
      (fun '(po_item, po) =>
         String.eqb (PO.supplier po) (Supplier.name supplier)
         && BETWEEN (POI.schedule_date po_item) (start_date scorecard) (end_date scorecard)
         && (POI.docstatus po_item =? 1)
         && String.eqb (POI.parent po_item) (PO.name po))) in
  Ok (or_zero data).

Definition get_cost_of_on_time_shipments (db : database) (scorecard : Scorecard)
  : result Q :=
  supplier <- get_doc_Supplier db (supplier scorecard) ;;
  let total_delivered_on_time_costs :=
    SUM (select
      (fun '(po_item, pr_item, po, pr) => PRI.base_amount pr_item)
      (tabPurchase_Order_Item db ** tabPurchase_Receipt_Item db
       ** tabPurchase_Order db ** tabPurchase_Receipt db)
      (fun '(po_item, pr_item, po, pr) =>
         String.eqb (PO.supplier po) (Supplier.name supplier)
         && BETWEEN (POI.schedule_date po_item) (start_date scorecard) (end_date scorecard)
         && date_leb (PR.posting_date pr) (POI.schedule_date po_item)
         && (PRI.docstatus pr_item =? 1)
         && eq_nullable (PRI.purchase_order_item pr_item) (POI.name po_item)
         && String.eqb (POI.parent po_item) (PO.name po)
         && String.eqb (PRI.parent pr_item) (PR.name pr))) in
  Ok (or_zero total_delivered_on_time_costs).

Definition get_cost_of_delayed_shipments (db : database) (scorecard : Scorecard)
  : result Q :=
  total <- get_total_cost_of_shipments db scorecard ;;
  on_time <- get_cost_of_on_time_shipments db scorecard ;;
  Ok (total - on_time)%Q.

Definition get_total_days_late (db : database) (scorecard : Scorecard) : result Q :=
  supplier <- get_doc_Supplier db (supplier scorecard) ;;
  let total_delivered_late_days :=
    SUM (select
      (fun '(po_item, pr_item, po, pr) =>
         (inject_Z (DATEDIFF (PR.posting_date pr) (POI.schedule_date po_item))
          * PRI.qty pr_item)%Q)
      (tabPurchase_Order_Item db ** tabPurchase_Receipt_Item db
       ** tabPurchase_Order db ** tabPurchase_Receipt db)
      (fun '(po_item, pr_item, po, pr) =>
         String.eqb (PO.supplier po) (Supplier.name supplier)
         && BETWEEN (POI.schedule_date po_item) (start_date scorecard) (end_date scorecard)
         && date_ltb (POI.schedule_date po_item) (PR.posting_date pr)
         && (PRI.docstatus pr_item =? 1)
         && eq_nullable (PRI.purchase_order_item pr_item) (POI.name po_item)
         && String.eqb (POI.parent po_item) (PO.name po)
         && String.eqb (PRI.parent pr_item) (PR.name pr))) in
  let total_delivered_late_days := or_zero total_delivered_late_days in
  let total_missed_late_days :=
    SUM (select
      (fun '(po_item, po) =>
         (inject_Z (DATEDIFF (end_date scorecard) (POI.schedule_date po_item))
          * (POI.qty po_item - POI.received_qty po_item))%Q)
      (tabPurchase_Order_Item db ** tabPurchase_Order db)
      (fun '(po_item, po) =>
         String.eqb (PO.supplier po) (Supplier.name supplier)
         && Qlt_bool (POI.received_qty po_item) (POI.qty po_item)
         && BETWEEN (POI.schedule_date po_item) (start_date scorecard) (end_date scorecard)
         && String.eqb (POI.parent po_item) (PO.name po))) in
  let total_missed_late_days := or_zero total_missed_late_days in
  Ok (total_missed_late_days + total_delivered_late_days)%Q.

Definition get_on_time_shipments (db : database) (scorecard : Scorecard) : result Z :=
  supplier <- get_doc_Supplier db (supplier scorecard) ;;
  let total_items_delivered_on_time :=
    COUNT (select
      (fun '(po_item, pr_item, po, pr) => PRI.qty pr_item)
      (tabPurchase_Order_Item db ** tabPurchase_Receipt_Item db
       ** tabPurchase_Order db ** tabPurchase_Receipt db)
      (fun '(po_item, pr_item, po, pr) =>
         String.eqb (PO.supplier po) (Supplier.name supplier)
         && BETWEEN (POI.schedule_date po_item) (start_date scorecard) (end_date scorecard)
         && date_leb (POI.schedule_date po_item) (PR.posting_date pr)
         && Qeq_bool (POI.qty po_item) (PRI.qty pr_item)
         && (PRI.docstatus pr_item =? 1)
         && eq_nullable (PRI.purchase_order_item pr_item) (POI.name po_item)
         && String.eqb (POI.parent po_item) (PO.name po)
         && String.eqb (PRI.parent pr_item) (PR.name pr))) in
  Ok (or_zero_int total_items_delivered_on_time).

Definition get_total_shipments (db : database) (scorecard : Scorecard) : result Z :=
  supplier <- get_doc_Supplier db (supplier scorecard) ;;
  let data :=
    COUNT (select
      (fun '(po_item, po) => POI.base_amount po_item)
      (tabPurchase_Order_Item db ** tabPurchase_Order db)
      (fun '(po_item, po) =>
         String.eqb (PO.supplier po) (Supplier.name supplier)
         && BETWEEN (POI.schedule_date po_item) (start_date scorecard) (end_date scorecard)
         && (POI.docstatus po_item =? 1)
         && String.eqb (POI.parent po_item) (PO.name po))) in
  Ok (or_zero_int data).

Definition get_late_shipments (db : database) (scorecard : Scorecard) : result Z :=
  total <- get_total_shipments db scorecard ;;
  on_time <- get_on_time_shipments db scorecard ;;
  Ok (total - on_time).

(** The seven receiving totals share their [FROM] and [WHERE] clauses word
    for word:
    [FROM `tabPurchase Receipt Item` pr_item, `tabPurchase Receipt` pr
     WHERE pr.supplier = %(supplier)s
       AND pr.posting_date BETWEEN %(start_date)s AND %(end_date)s
       AND pr_item.docstatus = 1
       AND pr_item.parent = pr.name]. *)
Definition received_lines (db : database) (supplier : Supplier.row)
  (scorecard : Scorecard) : list (PRI.row * PR.row) :=
  select (fun row => row)
    (tabPurchase_Receipt_Item db ** tabPurchase_Receipt db)
    (fun '(pr_item, pr) =>
       String.eqb (PR.supplier pr) (Supplier.name supplier)
       && BETWEEN (PR.posting_date pr) (start_date scorecard) (end_date scorecard)
       && (PRI.docstatus pr_item =? 1)
       && String.eqb (PRI.parent pr_item) (PR.name pr)).

Definition get_total_received (db : database) (scorecard : Scorecard) : result Z :=
  supplier <- get_doc_Supplier db (supplier scorecard) ;;
  let data :=
    COUNT (map (fun '(pr_item, pr) => PRI.base_amount pr_item)
               (received_lines db supplier scorecard)) in
  Ok (or_zero_int data).

Definition get_total_received_amount (db : database) (scorecard : Scorecard)
  : result Q :=
  supplier <- get_doc_Supplier db (supplier scorecard) ;;
  let data :=
    SUM (map (fun '(pr_item, pr) => (PRI.received_qty pr_item * PRI.base_rate pr_item)%Q)
             (received_lines db supplier scorecard)) in
  Ok (or_zero data).

Definition get_total_received_items (db : database) (scorecard : Scorecard)
  : result Q :=
  supplier <- get_doc_Supplier db (supplier scorecard) ;;
  let data :=
    SUM (map (fun '(pr_item, pr) => PRI.received_qty pr_item)
             (received_lines db supplier scorecard)) in
  Ok (or_zero data).

Definition get_total_rejected_amount (db : database) (scorecard : Scorecard)
  : result Q :=
  supplier <- get_doc_Supplier db (supplier scorecard) ;;
  let data :=
    SUM (map (fun '(pr_item, pr) => (PRI.rejected_qty pr_item * PRI.base_rate pr_item)%Q)
             (received_lines db supplier scorecard)) in
  Ok (or_zero data).

Definition get_total_rejected_items (db : database) (scorecard : Scorecard)
  : result Q :=
  supplier <- get_doc_Supplier db (supplier scorecard) ;;
  let data :=
    SUM (map (fun '(pr_item, pr) => PRI.rejected_qty pr_item)
             (received_lines db supplier scorecard)) in
  Ok (or_zero data).

Definition get_total_accepted_amount (db : database) (scorecard : Scorecard)
  : result Q :=
  supplier <- get_doc_Supplier db (supplier scorecard) ;;
  let data :=
    SUM (map (fun '(pr_item, pr) => (PRI.qty pr_item * PRI.base_rate pr_item)%Q)
             (received_lines db supplier scorecard)) in
  Ok (or_zero data).

Definition get_total_accepted_items (db : database) (scorecard : Scorecard)
  : result Q :=
  supplier <- get_doc_Supplier db (supplier scorecard) ;;
  let data :=
    SUM (map (fun '(pr_item, pr) => PRI.qty pr_item)
             (received_lines db supplier scorecard)) in
  Ok (or_zero data).

(** The query builder statement; no Supplier document is fetched here. *)
Definition get_ordered_qty (db : database) (scorecard : Scorecard) : result Q :=
  Ok (or_0
    (SUM (select
      (fun po => PO.total_qty po)
      (tabPurchase_Order db)
      (fun po =>
         String.eqb (PO.supplier po) (supplier scorecard)
         && (PO.docstatus po =? 1)
         && date_leb (start_date scorecard) (PO.transaction_date po)
         && date_leb (PO.transaction_date po) (end_date scorecard))))).

Definition get_rfq_total_number (db : database) (scorecard : Scorecard) : result Z :=
  supplier <- get_doc_Supplier db (supplier scorecard) ;;
  let data :=
    COUNT (select
      (fun '(rfq_item, rfq_sup, rfq) => RFQ.name rfq)
      (tabRequest_for_Quotation_Item db ** tabRequest_for_Quotation_Supplier db
       ** tabRequest_for_Quotation db)
      (fun '(rfq_item, rfq_sup, rfq) =>
         String.eqb (RFQS.supplier rfq_sup) (Supplier.name supplier)
         && BETWEEN (RFQ.transaction_date rfq) (start_date scorecard) (end_date scorecard)
         && (RFQI.docstatus rfq_item =? 1)
         && String.eqb (RFQI.parent rfq_item) (RFQ.name rfq)
         && String.eqb (RFQS.parent rfq_sup) (RFQ.name rfq))) in
  Ok (or_zero_int data).

Definition get_rfq_total_items (db : database) (scorecard : Scorecard) : result Z :=
  supplier <- get_doc_Supplier db (supplier scorecard) ;;
  let data :=
    COUNT (select
      (fun '(rfq_item, rfq_sup, rfq) => RFQI.name rfq_item)
      (tabRequest_for_Quotation_Item db ** tabRequest_for_Quotation_Supplier db
       ** tabRequest_for_Quotation db)
      (fun '(rfq_item, rfq_sup, rfq) =>
         String.eqb (RFQS.supplier rfq_sup) (Supplier.name supplier)
         && BETWEEN (RFQ.transaction_date rfq) (start_date scorecard) (end_date scorecard)
         && (RFQI.docstatus rfq_item =? 1)
         && String.eqb (RFQI.parent rfq_item) (RFQ.name rfq)
         && String.eqb (RFQS.parent rfq_sup) (RFQ.name rfq))) in
  Ok (or_zero_int data).

Definition get_sq_total_number (db : database) (scorecard : Scorecard) : result Z :=
  supplier <- get_doc_Supplier db (supplier scorecard) ;;
  let data :=
    COUNT (select
      (fun '(rfq_item, sq_item, rfq_sup, rfq, sq) => SQ.name sq)
      (tabRequest_for_Quotation_Item db ** tabSupplier_Quotation_Item db
       ** tabRequest_for_Quotation_Supplier db ** tabRequest_for_Quotation db
       ** tabSupplier_Quotation db)
      (fun '(rfq_item, sq_item, rfq_sup, rfq, sq) =>
         String.eqb (RFQS.supplier rfq_sup) (Supplier.name supplier)
         && BETWEEN (RFQ.transaction_date rfq) (start_date scorecard) (end_date scorecard)
         && eq_nullable (SQI.request_for_quotation_item sq_item) (RFQI.name rfq_item)
         && (SQI.docstatus sq_item =? 1)
         && (RFQI.docstatus rfq_item =? 1)
         && String.eqb (SQ.supplier sq) (Supplier.name supplier)
         && String.eqb (SQI.parent sq_item) (SQ.name sq)
         && String.eqb (RFQI.parent rfq_item) (RFQ.name rfq)
         && String.eqb (RFQS.parent rfq_sup) (RFQ.name rfq))) in
  Ok (or_zero_int data).

Definition get_sq_total_items (db : database) (scorecard : Scorecard) : result Z :=
  supplier <- get_doc_Supplier db (supplier scorecard) ;;
  let data :=
    COUNT (select
      (fun '(rfq_item, sq_item, sq, rfq_sup, rfq) => SQI.name sq_item)
      (tabRequest_for_Quotation_Item db ** tabSupplier_Quotation_Item db
       ** tabSupplier_Quotation db ** tabRequest_for_Quotation_Supplier db
       ** tabRequest_for_Quotation db)
      (fun '(rfq_item, sq_item, sq, rfq_sup, rfq) =>
         String.eqb (RFQS.supplier rfq_sup) (Supplier.name supplier)
         && BETWEEN (RFQ.transaction_date rfq) (start_date scorecard) (end_date scorecard)
         && eq_nullable (SQI.request_for_quotation_item sq_item) (RFQI.name rfq_item)
         && (SQI.docstatus sq_item =? 1)
         && String.eqb (SQ.supplier sq) (Supplier.name supplier)
         && String.eqb (SQI.parent sq_item) (SQ.name sq)
         && (RFQI.docstatus rfq_item =? 1)
         && String.eqb (RFQI.parent rfq_item) (RFQ.name rfq)
         && String.eqb (RFQS.parent rfq_sup) (RFQ.name rfq))) in
  Ok (or_zero_int data).

Definition get_rfq_response_days (db : database) (scorecard : Scorecard) : result Q :=
  supplier <- get_doc_Supplier db (supplier scorecard) ;;
  let total_sq_days :=
    SUM (select
      (fun '(rfq_item, sq_item, sq, rfq_sup, rfq) =>
         inject_Z (DATEDIFF (SQ.transaction_date sq) (RFQ.transaction_date rfq)))
      (tabRequest_for_Quotation_Item db ** tabSupplier_Quotation_Item db
       ** tabSupplier_Quotation db ** tabRequest_for_Quotation_Supplier db
       ** tabRequest_for_Quotation db)
      (fun '(rfq_item, sq_item, sq, rfq_sup, rfq) =>
         String.eqb (RFQS.supplier rfq_sup) (Supplier.name supplier)
         && BETWEEN (RFQ.transaction_date rfq) (start_date scorecard) (end_date scorecard)
         && eq_nullable (SQI.request_for_quotation_item sq_item) (RFQI.name rfq_item)
         && (SQI.docstatus sq_item =? 1)
         && String.eqb (SQ.supplier sq) (Supplier.name supplier)
         && String.eqb (SQI.parent sq_item) (SQ.name sq)
         && (RFQI.docstatus rfq_item =? 1)
         && String.eqb (RFQI.parent rfq_item) (RFQ.name rfq)
         && String.eqb (RFQS.parent rfq_sup) (RFQ.name rfq))) in
  Ok (or_zero total_sq_days).

(** *** Manual score aggregates *)

Definition get_all_quality_score (db : database) (scorecard : Scorecard) : result Q :=
  _ <- (if negb (db_exists_Supplier_Score db (supplier scorecard))
        then throw ("Supplier '" ++ supplier scorecard
                    ++ "' does not exist in Supplier Score List. Please select a created supplier")%string
                   ValidationError
        else Ok tt) ;;
  r <- unpack (db_get_value_Supplier_Score db (supplier scorecard)) ;;
  let compliance_score := or_0 (SS.compliance_of_service r) in
  let quality_score := or_0 (SS.quality_certificate r) in
  let tech_infra_score := or_0 (SS.technological_infrastructure r) in
  let financial_score := or_0 (SS.financial_capacity r) in
  let market_image_score := or_0 (SS.market_image r) in
  let total_score :=
    (compliance_score + quality_score + tech_infra_score + financial_score
     + market_image_score)%Q in
  Ok total_score.

Definition get_all_delivery_score (db : database) (scorecard : Scorecard) : result Q :=
  r <- unpack (db_get_value_Supplier_Score db (supplier scorecard)) ;;
  let on_time_delivery := or_0 (SS.on_time_delivery r) in
  let fast_response := or_0 (SS.fast_response_to_urgent_requests r) in
  let shipping_document := or_0 (SS.shipping_document r) in
  let capacity_adequacy := or_0 (SS.capacity_adequacy r) in
  let total_score :=
    (on_time_delivery + fast_response + shipping_document + capacity_adequacy)%Q in
  Ok total_score.

Definition get_all_price_score (db : database) (scorecard : Scorecard) : result Q :=
  r <- unpack (db_get_value_Supplier_Score db (supplier scorecard)) ;;
  let payment_terms := or_0 (SS.payment_terms r) in
  let competitive_pricing := or_0 (SS.competitive_pricing r) in
  let on_time_offer := or_0 (SS.on_time_offer r) in
  let revised_offer := or_0 (SS.revised_offer r) in
  let total_score :=
    (payment_terms + competitive_pricing + on_time_offer + revised_offer)%Q in
  Ok total_score.

Definition get_all_customer_satisfaction_score (db : database) (scorecard : Scorecard)
  : result Q :=
  r <- unpack (db_get_value_Supplier_Score db (supplier scorecard)) ;;
  let num_complaints := or_0 (SS.number_of_complaints r) in
  let approach_complaints := or_0 (SS.approach_to_complaints r) in
  let quick_solution := or_0 (SS.quick_solution r) in
  let effective_solution := or_0 (SS.effective_solution r) in
  let total_score :=
    (num_complaints + approach_complaints + quick_solution + effective_solution)%Q in
  Ok total_score.

(** ** The catalogue

    The metric functions the module defines, by name; counts are read as
    numbers. *)

Definition metric : Type := database -> Scorecard -> result Q.

Definition counted (f : database -> Scorecard -> result Z) : metric :=
  fun db scorecard => n <- f db scorecard ;; Ok (inject_Z n).

(** The metrics that are one aggregate query over purchasing, receiving and
    quotation rows, or the difference of two of them. *)
Definition query_metrics : list (string * metric) :=
  [ ("get_item_workdays", get_item_workdays);
    ("get_total_cost_of_shipments", get_total_cost_of_shipments);
    ("get_cost_of_delayed_shipments", get_cost_of_delayed_shipments);
    ("get_cost_of_on_time_shipments", get_cost_of_on_time_shipments);
    ("get_total_days_late", get_total_days_late);
    ("get_on_time_shipments", counted get_on_time_shipments);
    ("get_late_shipments", counted get_late_shipments);
    ("get_total_received", counted get_total_received);
    ("get_total_received_amount", get_total_received_amount);
    ("get_total_received_items", get_total_received_items);
    ("get_total_rejected_amount", get_total_rejected_amount);
    ("get_total_rejected_items", get_total_rejected_items);
    ("get_total_accepted_amount", get_total_accepted_amount);
    ("get_total_accepted_items", get_total_accepted_items);
    ("get_total_shipments", counted get_total_shipments);
    ("get_ordered_qty", get_ordered_qty);
    ("get_rfq_total_number", counted get_rfq_total_number);
    ("get_rfq_total_items", counted get_rfq_total_items);
    ("get_sq_total_number", counted get_sq_total_number);
    ("get_sq_total_items", counted get_sq_total_items);
    ("get_rfq_response_days", get_rfq_response_days) ].

(** The metrics read from the Supplier Score record. *)
Definition score_metrics : list (string * metric) :=
  [ ("get_all_quality_score", get_all_quality_score);
    ("get_all_delivery_score", get_all_delivery_score);
    ("get_all_price_score", get_all_price_score);
    ("get_all_customer_satisfaction_score", get_all_customer_satisfaction_score) ].

Definition catalogue : list (string * metric) :=
  ("get_total_workdays", fun _ scorecard => Ok (inject_Z (get_total_workdays scorecard)))
  :: query_metrics ++ score_metrics.

Definition metric_names : list string := map fst catalogue.

(** Every name bound at the top level of the module: the imports, the two
    classes and the functions. *)
Definition module_level_names : list string :=
  [ "sys"; "frappe"; "_"; "Document"; "Sum"; "getdate";
    "VariablePathNotFound"; "SupplierScorecardVariable" ] ++ metric_names.

(** ** The path validator *)

Fixpoint contains_dot (path : string) : bool :=
  match path with
  | EmptyString => false
  | String c rest => Ascii.eqb c "."%char || contains_dot rest
  end.

(** [sub in s] *)
Definition contains (s sub : string) : Prop :=
  exists before after, s = (before ++ sub ++ after)%string.

Section PathValidator.

(** [import_string_path] of the supplier scorecard period module, which
    resolves a dotted path or raises. *)
Variable import_string_path : string -> result unit.

(** [frappe._], the translation of a message. *)
Variable translate : string -> string.

(** The attributes a module object has whatever its source ([__name__],
    [__doc__], [__class__], ...). *)
Variable module_object_attrs : list string.

(** [hasattr(sys.modules[__name__], name)] *)
Definition hasattr_module (name : string) : bool :=
  existsb (String.eqb name) (module_level_names ++ module_object_attrs).

Definition validate_path_exists (path : string) : result unit :=
  if contains_dot path then
    match import_string_path path with
    | Ok _ => Ok tt
    | Raise e =>
        if issubclass (exn_type e) AttributeError
        then throw (translate ("Could not find path for " ++ path)%string)
                   VariablePathNotFound
        else Raise e
    end
  else
    if negb (hasattr_module path)
    then throw (translate ("Could not find path for " ++ path)%string)
               VariablePathNotFound
    else Ok tt.

Definition validate (path : string) : result unit := validate_path_exists path.

End PathValidator.

(** ** Specification-side definitions *)

(** The Supplier document of the scorecard exists. *)
Definition supplier_exists (db : database) (scorecard : Scorecard) : bool :=
  existsb (fun s => String.eqb (Supplier.name s) (supplier scorecard)) (tabSupplier db).

(** No order line of an order of the supplier is scheduled in the period. *)
Definition no_order_lines (db : database) (scorecard : Scorecard) : bool :=
  forallb
    (fun '(po_item, po) =>
       negb (String.eqb (PO.supplier po) (supplier scorecard)
             && BETWEEN (POI.schedule_date po_item) (start_date scorecard) (end_date scorecard)
             && String.eqb (POI.parent po_item) (PO.name po)))
    (tabPurchase_Order_Item db ** tabPurchase_Order db).

(** No order of the supplier is dated in the period. *)
Definition no_orders (db : database) (scorecard : Scorecard) : bool :=
  forallb
    (fun po =>
       negb (String.eqb (PO.supplier po) (supplier scorecard)
             && BETWEEN (PO.transaction_date po) (start_date scorecard) (end_date scorecard)))
    (tabPurchase_Order db).

(** No line of a receipt from the supplier is posted in the period. *)
Definition no_receipt_lines (db : database) (scorecard : Scorecard) : bool :=
  forallb
    (fun '(pr_item, pr) =>
       negb (String.eqb (PR.supplier pr) (supplier scorecard)
             && BETWEEN (PR.posting_date pr) (start_date scorecard) (end_date scorecard)
             && String.eqb (PRI.parent pr_item) (PR.name pr)))
    (tabPurchase_Receipt_Item db ** tabPurchase_Receipt db).

(** No request for quotation dated in the period lists the supplier; the
    quotation metrics count quotations answering such requests only. *)
Definition no_rfqs (db : database) (scorecard : Scorecard) : bool :=
  forallb
    (fun '(rfq_sup, rfq) =>
       negb (String.eqb (RFQS.supplier rfq_sup) (supplier scorecard)
             && BETWEEN (RFQ.transaction_date rfq) (start_date scorecard) (end_date scorecard)
             && String.eqb (RFQS.parent rfq_sup) (RFQ.name rfq)))
    (tabRequest_for_Quotation_Supplier db ** tabRequest_for_Quotation db).

Definition no_matching_rows (db : database) (scorecard : Scorecard) : bool :=
  no_order_lines db scorecard && no_orders db scorecard
  && no_receipt_lines db scorecard && no_rfqs db scorecard.

(** An aggregate over no rows counts as 0. *)
Definition coalesce (v : option Q) : Q :=
  match v with
  | Some q => q
  | None => 0%Q
  end.

(** A confirmed receipt line [pr_item] of receipt [pr], linked to the order
    line [po_item] of an order [po] of the supplier that is scheduled in the
    period, was received late: posted after the schedule date. *)
Definition received_late (scorecard : Scorecard)
  (row : POI.row * PRI.row * PO.row * PR.row) : bool :=
  let '(po_item, pr_item, po, pr) := row in
  (PRI.docstatus pr_item =? 1)
  && String.eqb (PRI.parent pr_item) (PR.name pr)
  && eq_nullable (PRI.purchase_order_item pr_item) (POI.name po_item)
  && String.eqb (POI.parent po_item) (PO.name po)
  && String.eqb (PO.supplier po) (supplier scorecard)
  && BETWEEN (POI.schedule_date po_item) (start_date scorecard) (end_date scorecard)
  && date_ltb (POI.schedule_date po_item) (PR.posting_date pr).

(** Aggregate (1): the late days of the lines received late. *)
Definition received_late_days (db : database) (scorecard : Scorecard) : option Q :=
  SUM (map
    (fun '(po_item, pr_item, po, pr) =>
       (inject_Z (DATEDIFF (PR.posting_date pr) (POI.schedule_date po_item))
        * PRI.qty pr_item)%Q)
    (filter (received_late scorecard)
       (tabPurchase_Order_Item db ** tabPurchase_Receipt_Item db
        ** tabPurchase_Order db ** tabPurchase_Receipt db))).

(** An order line [po_item] of an order [po] of the supplier that is
    scheduled in the period and not fully received. *)
Definition not_fully_received (scorecard : Scorecard) (row : POI.row * PO.row) : bool :=
  let '(po_item, po) := row in
  String.eqb (POI.parent po_item) (PO.name po)
  && String.eqb (PO.supplier po) (supplier scorecard)
  && BETWEEN (POI.schedule_date po_item) (start_date scorecard) (end_date scorecard)
  && Qlt_bool (POI.received_qty po_item) (POI.qty po_item).

(** Aggregate (2): the late days of what is still to be received. *)
Definition missed_late_days (db : database) (scorecard : Scorecard) : option Q :=
  SUM (map
    (fun '(po_item, po) =>
       (inject_Z (DATEDIFF (end_date scorecard) (POI.schedule_date po_item))
        * (POI.qty po_item - POI.received_qty po_item))%Q)
    (filter (not_fully_received scorecard)
       (tabPurchase_Order_Item db ** tabPurchase_Order db))).

(** ** Scenarios *)

Definition january_2024 (supplier_name : string) : Scorecard :=
  mk_scorecard supplier_name (mk_date 2024 1 1) (mk_date 2024 1 31).

(** A period entered backwards. *)
Definition inverted_january_2024 : Scorecard :=
  mk_scorecard "S1" (mk_date 2024 1 31) (mk_date 2024 1 1).

(** Supplier S1 with nothing ordered, received or quoted. *)
Definition store_without_activity : database :=
  mk_database [Supplier.mk "S1"] [] [] [] [] [] [] [] [] [] [].

(** One confirmed order line for S1, 10 units scheduled for 2024-01-05, and
    one confirmed receipt line of 10 units against it, posted on [posted]. *)
Definition store_with_one_receipt (posted : date) : database :=
  mk_database
    [Supplier.mk "S1"]
    [PO.mk "PO-0001" "S1" 1 (mk_date 2023 12 20) 10]
    [POI.mk "poi-1" "PO-0001" 1 (mk_date 2024 1 5) 10 10 100]
    [PR.mk "PR-0001" "S1" posted]
    [PRI.mk "pri-1" "PR-0001" 1 (Some "poi-1") 10 10 0 10 100]
    [] [] [] [] [] [].

(** The order line received three days late, on 2024-01-08, and a second
    line of 10 units scheduled for 2024-01-21 of which 4 were received. *)
Definition store_with_late_and_open_lines : database :=
  mk_database
    [Supplier.mk "S1"]
    [PO.mk "PO-0001" "S1" 1 (mk_date 2023 12 20) 20]
    [POI.mk "poi-1" "PO-0001" 1 (mk_date 2024 1 5) 10 10 100;
     POI.mk "poi-2" "PO-0001" 1 (mk_date 2024 1 21) 10 4 100]
    [PR.mk "PR-0001" "S1" (mk_date 2024 1 8)]
    [PRI.mk "pri-1" "PR-0001" 1 (Some "poi-1") 10 10 0 10 100]
    [] [] [] [] [] [].

(** The same order line, received on time at a higher amount than ordered. *)
Definition store_with_dearer_receipt : database :=
  mk_database
    [Supplier.mk "S1"]
    [PO.mk "PO-0001" "S1" 1 (mk_date 2023 12 20) 10]
    [POI.mk "poi-1" "PO-0001" 1 (mk_date 2024 1 5) 10 10 100]
    [PR.mk "PR-0001" "S1" (mk_date 2024 1 4)]
    [PRI.mk "pri-1" "PR-0001" 1 (Some "poi-1") 10 10 0 12 120]
    [] [] [] [] [] [].

(** A Supplier Score record for S2 alone, with one field entered. *)
Definition store_with_score_for_S2 : database :=
  mk_database [Supplier.mk "S1"; Supplier.mk "S2"] [] [] [] [] [] [] [] [] []
    [SS.mk "S2" (Some 3%Q) None None None None None None None None None None None
       None None None None None].

(** The names the import system sets on every module, besides what the
    module's source binds. *)
Definition module_dunder_names : list string :=
  [ "__name__"; "__doc__"; "__package__"; "__loader__"; "__spec__";
    "__file__"; "__cached__"; "__builtins__" ].

(** No translation loaded: every message stays as written. *)
Definition untranslated (msg : string) : string := msg.

(** An import helper for which no module of the path can be imported. *)
Definition import_of_unknown_module (path : string) : result unit :=
  Raise (mk_exn ModuleNotFoundError "No module named 'nomodule'").

(** An import helper that finds the module and not the attribute. *)
Definition import_of_unknown_attribute (path : string) : result unit :=
  Raise (mk_exn AttributeError "module 'erpnext' has no attribute 'nothing'").

(** ** Further specification-side definitions *)

(** The period of [inner] lies within the period of [outer], for the same
    supplier. *)
Definition within (inner outer : Scorecard) : bool :=
  String.eqb (supplier inner) (supplier outer)
  && date_leb (start_date outer) (start_date inner)
  && date_leb (end_date inner) (end_date outer).

(** The period ends before it starts. *)
Definition inverted (scorecard : Scorecard) : bool :=
  date_ltb (end_date scorecard) (start_date scorecard).

(** The metrics that are the [COUNT] of one query. *)
Definition count_metrics : list (database -> Scorecard -> result Z) :=
  [ get_total_shipments; get_on_time_shipments; get_total_received;
    get_rfq_total_number; get_rfq_total_items; get_sq_total_number;
    get_sq_total_items ].

(** The manual score aggregates. *)
Definition score_aggregates : list (database -> Scorecard -> result Q) :=
  [ get_all_quality_score; get_all_delivery_score; get_all_price_score;
    get_all_customer_satisfaction_score ].

(** The receiving totals that are the [SUM] of one query. *)
Definition receiving_totals : list (database -> Scorecard -> result Q) :=
  [ get_total_received_amount; get_total_received_items;
    get_total_rejected_amount; get_total_rejected_items;
    get_total_accepted_amount; get_total_accepted_items ].

(** The store after one more order line is inserted. *)
Definition with_order_line (db : database) (po_item : POI.row) : database :=
  mk_database
    (tabSupplier db) (tabPurchase_Order db)
    (po_item :: tabPurchase_Order_Item db)
    (tabPurchase_Receipt db) (tabPurchase_Receipt_Item db)
    (tabRequest_for_Quotation db) (tabRequest_for_Quotation_Item db)
    (tabRequest_for_Quotation_Supplier db)
    (tabSupplier_Quotation db) (tabSupplier_Quotation_Item db)
    (tabSupplier_Score db).

(** One request for quotation of two items sent to S1 on 2024-01-10, and the
    quotation of S1 for both items, dated 2024-01-13. *)
Definition store_with_quotation : database :=
  mk_database
    [Supplier.mk "S1"] [] [] [] []
    [RFQ.mk "RFQ-0001" (mk_date 2024 1 10)]
    [RFQI.mk "rfqi-1" "RFQ-0001" 1; RFQI.mk "rfqi-2" "RFQ-0001" 1]
    [RFQS.mk "RFQ-0001" "S1"]
    [SQ.mk "SQ-0001" "S1" (mk_date 2024 1 13)]
    [SQI.mk "sqi-1" "SQ-0001" 1 (Some "rfqi-1");
     SQI.mk "sqi-2" "SQ-0001" 1 (Some "rfqi-2")]
    [].

(** A receipt of 10 units of which 8 were accepted and 2 rejected, at a
    rate of 5. *)
Definition store_with_rejection : database :=
  mk_database
    [Supplier.mk "S1"] [] []
    [PR.mk "PR-0001" "S1" (mk_date 2024 1 9)]
    [PRI.mk "pri-1" "PR-0001" 1 None 8 10 2 5 40]
    [] [] [] [] [] [].

(** A draft order line of the order PO-0001, scheduled in January 2024. *)
Definition draft_order_line : POI.row :=
  POI.mk "poi-9" "PO-0001" 0 (mk_date 2024 1 12) 5 0 50.

(** The first half of January 2024. *)
Definition early_january_2024 (supplier_name : string) : Scorecard :=
  mk_scorecard supplier_name (mk_date 2024 1 1) (mk_date 2024 1 15).

(** * Properties *)

(** ** Dates *)

Lemma days_before_year_succ y :
  days_before_year (y + 1)
  = days_before_year y + 365 + (if is_leap y then 1 else 0).
Proof.
  unfold days_before_year, is_leap. cbv zeta.
  replace (y + 1 - 1) with y by lia.
  destruct (y mod 4 =? 0) eqn:E4; destruct (y mod 100 =? 0) eqn:E100;
    destruct (y mod 400 =? 0) eqn:E400; simpl;
    rewrite ?Z.eqb_eq, ?Z.eqb_neq in *;
    Z.to_euclidean_division_equations; lia.
Qed.

Lemma days_before_year_mono a b :
  a <= b -> days_before_year a <= days_before_year b.
Proof.
  unfold days_before_year. cbv zeta. intros.
  Z.to_euclidean_division_equations; lia.
Qed.

Ltac month_cases m :=
  let Hc := fresh "Hc" in
  assert (m = 1 \/ m = 2 \/ m = 3 \/ m = 4 \/ m = 5 \/ m = 6 \/ m = 7
          \/ m = 8 \/ m = 9 \/ m = 10 \/ m = 11 \/ m = 12) as Hc by lia;
  repeat (destruct Hc as [Hc | Hc]); subst m.

Lemma day_of_year_bounds y m d :
  1 <= m <= 12 -> 1 <= d <= days_in_month y m ->
  1 <= days_before_month y m + d <= 365 + (if is_leap y then 1 else 0).
Proof.
  intros Hm Hd. unfold days_in_month, days_before_month in *.
  destruct (is_leap y); month_cases m; cbn -[Z.add] in *; lia.
Qed.

Lemma days_before_month_mono y m1 m2 d :
  1 <= m1 -> m1 < m2 -> m2 <= 12 -> 1 <= d <= days_in_month y m1 ->
  days_before_month y m1 + d <= days_before_month y m2.
Proof.
  intros H1 H12 H2 Hd. unfold days_in_month, days_before_month in *.
  destruct (is_leap y); month_cases m1; month_cases m2; try lia;
    cbn -[Z.add] in *; lia.
Qed.

(** The ordinal respects the calendar order of valid dates. *)
Lemma toordinal_lt a b :
  valid_date a -> valid_date b -> date_lt a b -> toordinal a < toordinal b.
Proof.
  intros (Hya & Hma & Hda) (Hyb & Hmb & Hdb) Hlt.
  unfold toordinal.
  destruct Hlt as [Hy | (Hy & [Hm | (Hm & Hd)])].
  - pose proof (day_of_year_bounds _ _ _ Hma Hda).
    pose proof (day_of_year_bounds _ _ _ Hmb Hdb).
    pose proof (days_before_year_succ (year a)).
    pose proof (days_before_year_mono (year a + 1) (year b) ltac:(lia)).
    lia.
  - rewrite Hy in *.
    pose proof (days_before_month_mono (year b) (month a) (month b) (day a)
                  ltac:(lia) Hm ltac:(lia) Hda).
    lia.
  - rewrite Hy, Hm. lia.
Qed.

(** C9: [get_total_workdays] is the signed number of calendar days from
    [start_date] to [end_date], the difference of their day numbers: positive
    when the period runs forward, zero for a one-day period, and negative,
    with no clamping, whenever [end_date] is an earlier day than
    [start_date]. *)
Theorem get_total_workdays_signed (scorecard : Scorecard) :
  get_total_workdays scorecard
  = toordinal (end_date scorecard) - toordinal (start_date scorecard)
  /\ (valid_date (start_date scorecard) -> valid_date (end_date scorecard) ->
      (date_lt (start_date scorecard) (end_date scorecard) ->
       0 < get_total_workdays scorecard)
      /\ (start_date scorecard = end_date scorecard ->
          get_total_workdays scorecard = 0)
      /\ (date_lt (end_date scorecard) (start_date scorecard) ->
          get_total_workdays scorecard < 0)).
Proof.
  unfold get_total_workdays, getdate, sub_days. cbv zeta.
  split; [reflexivity |].
  intros Hs He. repeat split.
  - intros Hlt. pose proof (toordinal_lt _ _ Hs He Hlt). lia.
  - intros ->. lia.
  - intros Hlt. pose proof (toordinal_lt _ _ He Hs Hlt). lia.
Qed.

(** A period entered backwards, 2024-01-31 to 2024-01-01, has -30 workdays. *)
Lemma get_total_workdays_signed_witness :
  valid_date (start_date inverted_january_2024)
  /\ valid_date (end_date inverted_january_2024)
  /\ date_lt (end_date inverted_january_2024) (start_date inverted_january_2024)
  /\ get_total_workdays inverted_january_2024 = -30
  /\ get_total_workdays inverted_january_2024 < 0.
Proof.
  assert (Hs : valid_date (start_date inverted_january_2024))
    by (unfold valid_date; cbn; lia).
  assert (He : valid_date (end_date inverted_january_2024))
    by (unfold valid_date; cbn; lia).
  assert (Hlt : date_lt (end_date inverted_january_2024)
                        (start_date inverted_january_2024))
    by (unfold date_lt; cbn; lia).
  split; [exact Hs |]. split; [exact He |]. split; [exact Hlt |].
  split; [reflexivity |].
  exact (proj2 (proj2 (proj2 (get_total_workdays_signed inverted_january_2024)
                         Hs He)) Hlt).
Defined.

(** ** The framework's lookups *)

Lemma get_doc_Supplier_found db scorecard :
  supplier_exists db scorecard = true ->
  exists doc,
    get_doc_Supplier db (supplier scorecard) = Ok doc
    /\ Supplier.name doc = supplier scorecard.
Proof.
  unfold supplier_exists, get_doc_Supplier. intros Hex.
  destruct (find _ (tabSupplier db)) as [doc |] eqn:Hfind.
  - exists doc. split; [reflexivity |].
    apply find_some in Hfind. now apply String.eqb_eq.
  - apply existsb_exists in Hex. destruct Hex as (doc & Hin & Heq).
    apply (find_none _ _ Hfind) in Hin. congruence.
Qed.

Lemma get_doc_Supplier_missing db scorecard :
  supplier_exists db scorecard = false ->
  exists e, get_doc_Supplier db (supplier scorecard) = Raise e
            /\ exn_type e = DoesNotExistError.
Proof.
  unfold supplier_exists, get_doc_Supplier. intros Hex.
  destruct (find _ (tabSupplier db)) as [doc |] eqn:Hfind.
  - apply find_some in Hfind.
    assert (existsb (fun s => String.eqb (Supplier.name s) (supplier scorecard))
              (tabSupplier db) = true) by (apply existsb_exists; eauto).
    congruence.
  - eexists. split; reflexivity.
Qed.

Lemma get_total_shipments_returns db scorecard :
  supplier_exists db scorecard = true ->
  exists total, get_total_shipments db scorecard = Ok total.
Proof.
  intros Hex. destruct (get_doc_Supplier_found _ _ Hex) as (doc & Hdoc & _).
  unfold get_total_shipments. rewrite Hdoc. cbn [bind]. eexists. reflexivity.
Qed.

Lemma get_on_time_shipments_returns db scorecard :
  supplier_exists db scorecard = true ->
  exists on_time, get_on_time_shipments db scorecard = Ok on_time.
Proof.
  intros Hex. destruct (get_doc_Supplier_found _ _ Hex) as (doc & Hdoc & _).
  unfold get_on_time_shipments. rewrite Hdoc. cbn [bind]. eexists. reflexivity.
Qed.

Lemma get_total_cost_of_shipments_returns db scorecard :
  supplier_exists db scorecard = true ->
  exists total, get_total_cost_of_shipments db scorecard = Ok total.
Proof.
  intros Hex. destruct (get_doc_Supplier_found _ _ Hex) as (doc & Hdoc & _).
  unfold get_total_cost_of_shipments. rewrite Hdoc. cbn [bind]. eexists. reflexivity.
Qed.

Lemma get_cost_of_on_time_shipments_returns db scorecard :
  supplier_exists db scorecard = true ->
  exists on_time, get_cost_of_on_time_shipments db scorecard = Ok on_time.
Proof.
  intros Hex. destruct (get_doc_Supplier_found _ _ Hex) as (doc & Hdoc & _).
  unfold get_cost_of_on_time_shipments. rewrite Hdoc. cbn [bind]. eexists. reflexivity.
Qed.

(** ** Derived metrics *)

(** C3: [get_late_shipments] is [get_total_shipments] minus
    [get_on_time_shipments]: whenever the two return, it returns their
    difference, and for a scorecard whose supplier exists all three return. *)
Theorem get_late_shipments_is_difference (db : database) (scorecard : Scorecard) :
  (forall total on_time,
     get_total_shipments db scorecard = Ok total ->
     get_on_time_shipments db scorecard = Ok on_time ->
     get_late_shipments db scorecard = Ok (total - on_time))
  /\ (supplier_exists db scorecard = true ->
      exists total on_time,
        get_total_shipments db scorecard = Ok total
        /\ get_on_time_shipments db scorecard = Ok on_time
        /\ get_late_shipments db scorecard = Ok (total - on_time)).
Proof.
  assert (Hdiff : forall total on_time,
     get_total_shipments db scorecard = Ok total ->
     get_on_time_shipments db scorecard = Ok on_time ->
     get_late_shipments db scorecard = Ok (total - on_time)).
  { intros total on_time Ht Ho. unfold get_late_shipments.
    rewrite Ht, Ho. reflexivity. }
  split; [exact Hdiff |].
  intros Hex.
  destruct (get_total_shipments_returns _ _ Hex) as (total & Ht).
  destruct (get_on_time_shipments_returns _ _ Hex) as (on_time & Ho).
  exists total, on_time. auto.
Qed.

(** With one order line and one receipt line posted after the schedule date:
    1 shipment, 1 counted on time, 0 late. *)
Lemma get_late_shipments_is_difference_witness :
  supplier_exists (store_with_one_receipt (mk_date 2024 1 6)) (january_2024 "S1") = true
  /\ get_late_shipments (store_with_one_receipt (mk_date 2024 1 6)) (january_2024 "S1")
     = Ok (1 - 1).
Proof.
  split; [reflexivity |].
  apply (proj1 (get_late_shipments_is_difference
                  (store_with_one_receipt (mk_date 2024 1 6)) (january_2024 "S1")));
    reflexivity.
Defined.

(** C4: [get_cost_of_delayed_shipments] is [get_total_cost_of_shipments]
    minus [get_cost_of_on_time_shipments], both of which return for a
    scorecard whose supplier exists; the total sums order-line amounts and the
    on-time cost sums receipt-line amounts, and the difference is negative for
    an order line of 100 received on time at 120. *)
Theorem get_cost_of_delayed_shipments_is_difference :
  (forall db scorecard total on_time,
     get_total_cost_of_shipments db scorecard = Ok total ->
     get_cost_of_on_time_shipments db scorecard = Ok on_time ->
     get_cost_of_delayed_shipments db scorecard = Ok (total - on_time)%Q)
  /\ (forall db scorecard,
        supplier_exists db scorecard = true ->
        exists total on_time,
          get_total_cost_of_shipments db scorecard = Ok total
          /\ get_cost_of_on_time_shipments db scorecard = Ok on_time
          /\ get_cost_of_delayed_shipments db scorecard = Ok (total - on_time)%Q)
  /\ (exists db scorecard delayed,
        get_cost_of_delayed_shipments db scorecard = Ok delayed
        /\ (delayed < 0)%Q).
Proof.
  assert (Hdiff : forall db scorecard total on_time,
     get_total_cost_of_shipments db scorecard = Ok total ->
     get_cost_of_on_time_shipments db scorecard = Ok on_time ->
     get_cost_of_delayed_shipments db scorecard = Ok (total - on_time)%Q).
  { intros db scorecard total on_time Ht Ho. unfold get_cost_of_delayed_shipments.
    rewrite Ht, Ho. reflexivity. }
  split; [exact Hdiff |]. split.
  - intros db scorecard Hex.
    destruct (get_total_cost_of_shipments_returns _ _ Hex) as (total & Ht).
    destruct (get_cost_of_on_time_shipments_returns _ _ Hex) as (on_time & Ho).
    exists total, on_time. auto.
  - exists store_with_dearer_receipt, (january_2024 "S1"), (-20)%Q.
    split; [vm_compute; reflexivity | reflexivity].
Qed.

(** The order line of 100 received at 120: total 100, on time 120. *)
Lemma get_cost_of_delayed_shipments_is_difference_witness :
  get_total_cost_of_shipments store_with_dearer_receipt (january_2024 "S1") = Ok 100%Q
  /\ get_cost_of_on_time_shipments store_with_dearer_receipt (january_2024 "S1")
     = Ok 120%Q
  /\ get_cost_of_delayed_shipments store_with_dearer_receipt (january_2024 "S1")
     = Ok (100 - 120)%Q.
Proof.
  assert (Ht : get_total_cost_of_shipments store_with_dearer_receipt
                 (january_2024 "S1") = Ok 100%Q) by (vm_compute; reflexivity).
  assert (Ho : get_cost_of_on_time_shipments store_with_dearer_receipt
                 (january_2024 "S1") = Ok 120%Q) by (vm_compute; reflexivity).
  split; [exact Ht |]. split; [exact Ho |].
  exact (proj1 get_cost_of_delayed_shipments_is_difference _ _ _ _ Ht Ho).
Defined.

(** ** On-time shipments *)

(** C2: the order line of 10 units scheduled for 2024-01-05 and its receipt
    line of 10 units.  Posted on 2024-01-04, a day early, the line is not
    counted by [get_on_time_shipments] and is counted as late, while
    [get_cost_of_on_time_shipments] takes its amount as delivered on time;
    posted on 2024-01-06, a day late, it is counted by
    [get_on_time_shipments], while [get_total_days_late] counts its 10 item
    days late. *)
Theorem get_on_time_shipments_early_receipt :
  get_on_time_shipments (store_with_one_receipt (mk_date 2024 1 4)) (january_2024 "S1")
  = Ok 0
  /\ get_late_shipments (store_with_one_receipt (mk_date 2024 1 4)) (january_2024 "S1")
     = Ok 1
  /\ get_cost_of_on_time_shipments (store_with_one_receipt (mk_date 2024 1 4))
       (january_2024 "S1") = Ok 100%Q
  /\ get_on_time_shipments (store_with_one_receipt (mk_date 2024 1 6)) (january_2024 "S1")
     = Ok 1
  /\ get_total_days_late (store_with_one_receipt (mk_date 2024 1 6)) (january_2024 "S1")
     = Ok 10%Q.
Proof.
  repeat split; vm_compute; reflexivity.
Qed.

(** ** Manual score aggregates *)

Lemma db_get_value_Supplier_Score_missing db name :
  db_exists_Supplier_Score db name = false ->
  db_get_value_Supplier_Score db name = None.
Proof.
  unfold db_exists_Supplier_Score, db_get_value_Supplier_Score. intros Hex.
  destruct (find _ (tabSupplier_Score db)) as [r |] eqn:Hfind; [| reflexivity].
  apply find_some in Hfind.
  assert (existsb (fun r => String.eqb (SS.name r) name) (tabSupplier_Score db) = true)
    by (apply existsb_exists; eauto).
  congruence.
Qed.

(** C8: with no Supplier Score record for the scorecard's supplier,
    [get_all_quality_score] raises a validation error whose message names the
    supplier; the delivery, price and customer satisfaction aggregates make no
    such check and fail in unpacking the missing record instead. *)
Theorem only_quality_score_checks_existence (db : database) (scorecard : Scorecard) :
  db_exists_Supplier_Score db (supplier scorecard) = false ->
  (exists msg,
     get_all_quality_score db scorecard = Raise (mk_exn ValidationError msg)
     /\ msg = ("Supplier '" ++ supplier scorecard
               ++ "' does not exist in Supplier Score List. Please select a created supplier")%string
     /\ contains msg (supplier scorecard))
  /\ (forall f,
        In f [get_all_delivery_score; get_all_price_score;
              get_all_customer_satisfaction_score] ->
        f db scorecard
        = Raise (mk_exn TypeError "cannot unpack non-iterable NoneType object")).
Proof.
  intros Hex. split.
  - eexists. split; [| split; [reflexivity |]].
    + unfold get_all_quality_score. rewrite Hex. reflexivity.
    + eexists "Supplier '", _. reflexivity.
  - pose proof (db_get_value_Supplier_Score_missing _ _ Hex) as Hnone.
    intros f [<- | [<- | [<- | []]]];
      unfold get_all_delivery_score, get_all_price_score,
        get_all_customer_satisfaction_score; rewrite Hnone; reflexivity.
Qed.

(** Only S2 has a Supplier Score record; the scorecard is for S1. *)
Lemma only_quality_score_checks_existence_witness :
  db_exists_Supplier_Score store_with_score_for_S2 (supplier (january_2024 "S1")) = false
  /\ get_all_quality_score store_with_score_for_S2 (january_2024 "S1")
     = Raise (mk_exn ValidationError
         "Supplier 'S1' does not exist in Supplier Score List. Please select a created supplier")
  /\ get_all_delivery_score store_with_score_for_S2 (january_2024 "S1")
     = Raise (mk_exn TypeError "cannot unpack non-iterable NoneType object").
Proof.
  assert (Hex : db_exists_Supplier_Score store_with_score_for_S2
                  (supplier (january_2024 "S1")) = false) by reflexivity.
  destruct (only_quality_score_checks_existence store_with_score_for_S2
              (january_2024 "S1") Hex) as ((msg & Hq & Hmsg & _) & Hothers).
  split; [exact Hex |]. split.
  - rewrite Hq, Hmsg. reflexivity.
  - apply Hothers. left. reflexivity.
Defined.

(** With a record, the quality score is the sum of the entered fields: the
    record of S2 has [compliance_of_service] 3 and nothing else. *)
Example get_all_quality_score_S2 :
  get_all_quality_score store_with_score_for_S2 (january_2024 "S2") = Ok 3%Q.
Proof. vm_compute. reflexivity. Qed.

(** ** Periods without activity *)

Lemma select_nil {R A : Type} (e : R -> A) (from : list R) (where_ : R -> bool) :
  (forall r, In r from -> where_ r = false) -> select e from where_ = [].
Proof.
  intros Hnone. unfold select.
  replace (filter where_ from) with (@nil R); [reflexivity |].
  symmetry. induction from as [| r from IH]; [reflexivity |].
  cbn. rewrite (Hnone r (or_introl eq_refl)).
  apply IH. intros r' Hin. apply Hnone. now right.
Qed.

Lemma cross_in {A B : Type} (la : list A) (lb : list B) (a : A) (b : B) :
  In a la -> In b lb -> In (a, b) (la ** lb).
Proof. unfold cross. apply in_prod. Qed.

Lemma no_order_lines_spec db scorecard po_item po :
  no_order_lines db scorecard = true ->
  In po_item (tabPurchase_Order_Item db) -> In po (tabPurchase_Order db) ->
  String.eqb (PO.supplier po) (supplier scorecard) = true ->
  BETWEEN (POI.schedule_date po_item) (start_date scorecard) (end_date scorecard) = true ->
  String.eqb (POI.parent po_item) (PO.name po) = true ->
  False.
Proof.
  unfold no_order_lines. intros Hno Hi Hp H1 H2 H3.
  rewrite forallb_forall in Hno.
  specialize (Hno _ (cross_in _ _ _ _ Hi Hp)). cbn in Hno.
  rewrite H1, H2, H3 in Hno. discriminate.
Qed.

Ltac split_where H :=
  repeat (let H' := fresh "Hw" in apply andb_prop in H; destruct H as [H H']).

Ltac split_in H :=
  unfold cross in H;
  repeat (let H' := fresh "Hi" in apply in_prod_iff in H; destruct H as [H H']).

Lemma no_orders_spec db scorecard po :
  no_orders db scorecard = true ->
  In po (tabPurchase_Order db) ->
  String.eqb (PO.supplier po) (supplier scorecard) = true ->
  date_leb (start_date scorecard) (PO.transaction_date po) = true ->
  date_leb (PO.transaction_date po) (end_date scorecard) = true ->
  False.
Proof.
  unfold no_orders, BETWEEN. intros Hno Hp H1 H2 H3.
  rewrite forallb_forall in Hno. specialize (Hno _ Hp). cbn in Hno.
  rewrite H1, H2, H3 in Hno. discriminate.
Qed.

Lemma no_receipt_lines_spec db scorecard pr_item pr :
  no_receipt_lines db scorecard = true ->
  In pr_item (tabPurchase_Receipt_Item db) -> In pr (tabPurchase_Receipt db) ->
  String.eqb (PR.supplier pr) (supplier scorecard) = true ->
  BETWEEN (PR.posting_date pr) (start_date scorecard) (end_date scorecard) = true ->
  String.eqb (PRI.parent pr_item) (PR.name pr) = true ->
  False.
Proof.
  unfold no_receipt_lines. intros Hno Hi Hp H1 H2 H3.
  rewrite forallb_forall in Hno.
  specialize (Hno _ (cross_in _ _ _ _ Hi Hp)). cbn in Hno.
  rewrite H1, H2, H3 in Hno. discriminate.
Qed.

Lemma no_rfqs_spec db scorecard rfq_sup rfq :
  no_rfqs db scorecard = true ->
  In rfq_sup (tabRequest_for_Quotation_Supplier db) ->
  In rfq (tabRequest_for_Quotation db) ->
  String.eqb (RFQS.supplier rfq_sup) (supplier scorecard) = true ->
  BETWEEN (RFQ.transaction_date rfq) (start_date scorecard) (end_date scorecard) = true ->
  String.eqb (RFQS.parent rfq_sup) (RFQ.name rfq) = true ->
  False.
Proof.
  unfold no_rfqs. intros Hno Hi Hp H1 H2 H3.
  rewrite forallb_forall in Hno.
  specialize (Hno _ (cross_in _ _ _ _ Hi Hp)). cbn in Hno.
  rewrite H1, H2, H3 in Hno. discriminate.
Qed.

(** A query whose [WHERE] clause no row of the store satisfies: fetch the
    Supplier, empty the selection, and refute a row that passes the clause
    with the absence of activity. *)
Ltac fetch_supplier found :=
  let doc := fresh "doc" in
  let Hdoc := fresh "Hdoc" in
  let Hname := fresh "Hname" in
  destruct found as (doc & Hdoc & Hname);
  rewrite Hdoc; cbn [bind].

Ltac refute_row Hin absent :=
  split_in Hin;
  apply not_true_is_false;
  let Hw := fresh "Hw" in
  intros Hw; split_where Hw;
  repeat match goal with
         | Hname : Supplier.name _ = _ |- _ => rewrite Hname in *; clear Hname
         end;
  eapply absent; eassumption.

Lemma received_lines_nil db doc scorecard :
  Supplier.name doc = supplier scorecard ->
  no_receipt_lines db scorecard = true ->
  received_lines db doc scorecard = [].
Proof.
  intros Hname Hpr. unfold received_lines. apply select_nil.
  intros [pr_item pr] Hin. refute_row Hin no_receipt_lines_spec.
Qed.

Lemma counted_zero f db scorecard :
  f db scorecard = Ok 0 -> counted f db scorecard = Ok 0%Q.
Proof. unfold counted. intros ->. reflexivity. Qed.

Section WithoutActivity.

Variable db : database.
Variable scorecard : Scorecard.
Hypothesis Hex : supplier_exists db scorecard = true.
Hypothesis Hpo : no_order_lines db scorecard = true.
Hypothesis Hord : no_orders db scorecard = true.
Hypothesis Hpr : no_receipt_lines db scorecard = true.
Hypothesis Hrfq : no_rfqs db scorecard = true.

Ltac order_query :=
  fetch_supplier (get_doc_Supplier_found _ _ Hex);
  rewrite ?select_nil; [reflexivity | ..];
  intros [po_item po] Hin; refute_row Hin no_order_lines_spec.

Ltac order_receipt_query :=
  fetch_supplier (get_doc_Supplier_found _ _ Hex);
  rewrite ?select_nil; [reflexivity | ..];
  intros [[[po_item pr_item] po] pr] Hin; refute_row Hin no_order_lines_spec.

Ltac receipt_query :=
  let doc := fresh "doc" in
  let Hdoc := fresh "Hdoc" in
  let Hname := fresh "Hname" in
  destruct (get_doc_Supplier_found _ _ Hex) as (doc & Hdoc & Hname);
  rewrite Hdoc; cbn [bind];
  rewrite (received_lines_nil _ _ _ Hname Hpr); reflexivity.

Ltac rfq_query :=
  fetch_supplier (get_doc_Supplier_found _ _ Hex);
  rewrite select_nil; [reflexivity |].

Lemma get_item_workdays_zero : get_item_workdays db scorecard = Ok 0%Q.
Proof. unfold get_item_workdays. order_query. Qed.

Lemma get_total_cost_of_shipments_zero :
  get_total_cost_of_shipments db scorecard = Ok 0%Q.
Proof. unfold get_total_cost_of_shipments. order_query. Qed.

Lemma get_cost_of_on_time_shipments_zero :
  get_cost_of_on_time_shipments db scorecard = Ok 0%Q.
Proof. unfold get_cost_of_on_time_shipments. order_receipt_query. Qed.

Lemma get_cost_of_delayed_shipments_zero :
  get_cost_of_delayed_shipments db scorecard = Ok 0%Q.
Proof.
  unfold get_cost_of_delayed_shipments.
  rewrite get_total_cost_of_shipments_zero, get_cost_of_on_time_shipments_zero.
  reflexivity.
Qed.

Lemma get_total_days_late_zero : get_total_days_late db scorecard = Ok 0%Q.
Proof.
  unfold get_total_days_late. fetch_supplier (get_doc_Supplier_found _ _ Hex).
  rewrite !select_nil; [reflexivity | |].
  - intros [[[po_item pr_item] po] pr] Hin. refute_row Hin no_order_lines_spec.
  - intros [po_item po] Hin. refute_row Hin no_order_lines_spec.
Qed.

Lemma get_on_time_shipments_zero : get_on_time_shipments db scorecard = Ok 0.
Proof. unfold get_on_time_shipments. order_receipt_query. Qed.

Lemma get_total_shipments_zero : get_total_shipments db scorecard = Ok 0.
Proof. unfold get_total_shipments. order_query. Qed.

Lemma get_late_shipments_zero : get_late_shipments db scorecard = Ok 0.
Proof.
  unfold get_late_shipments.
  rewrite get_total_shipments_zero, get_on_time_shipments_zero. reflexivity.
Qed.

Lemma get_total_received_zero : get_total_received db scorecard = Ok 0.
Proof. unfold get_total_received. receipt_query. Qed.

Lemma get_total_received_amount_zero :
  get_total_received_amount db scorecard = Ok 0%Q.
Proof. unfold get_total_received_amount. receipt_query. Qed.

Lemma get_total_received_items_zero :
  get_total_received_items db scorecard = Ok 0%Q.
Proof. unfold get_total_received_items. receipt_query. Qed.

Lemma get_total_rejected_amount_zero :
  get_total_rejected_amount db scorecard = Ok 0%Q.
Proof. unfold get_total_rejected_amount. receipt_query. Qed.

Lemma get_total_rejected_items_zero :
  get_total_rejected_items db scorecard = Ok 0%Q.
Proof. unfold get_total_rejected_items. receipt_query. Qed.

Lemma get_total_accepted_amount_zero :
  get_total_accepted_amount db scorecard = Ok 0%Q.
Proof. unfold get_total_accepted_amount. receipt_query. Qed.

Lemma get_total_accepted_items_zero :
  get_total_accepted_items db scorecard = Ok 0%Q.
Proof. unfold get_total_accepted_items. receipt_query. Qed.

Lemma get_ordered_qty_zero : get_ordered_qty db scorecard = Ok 0%Q.
Proof.
  unfold get_ordered_qty. rewrite select_nil; [reflexivity |].
  intros po Hin. apply not_true_is_false. intros Hw. split_where Hw.
  eapply no_orders_spec; eassumption.
Qed.

Lemma get_rfq_total_number_zero : get_rfq_total_number db scorecard = Ok 0.
Proof.
  unfold get_rfq_total_number. rfq_query.
  intros [[rfq_item rfq_sup] rfq] Hin. refute_row Hin no_rfqs_spec.
Qed.

Lemma get_rfq_total_items_zero : get_rfq_total_items db scorecard = Ok 0.
Proof.
  unfold get_rfq_total_items. rfq_query.
  intros [[rfq_item rfq_sup] rfq] Hin. refute_row Hin no_rfqs_spec.
Qed.

Lemma get_sq_total_number_zero : get_sq_total_number db scorecard = Ok 0.
Proof.
  unfold get_sq_total_number. rfq_query.
  intros [[[[rfq_item sq_item] rfq_sup] rfq] sq] Hin. refute_row Hin no_rfqs_spec.
Qed.

Lemma get_sq_total_items_zero : get_sq_total_items db scorecard = Ok 0.
Proof.
  unfold get_sq_total_items. rfq_query.
  intros [[[[rfq_item sq_item] sq] rfq_sup] rfq] Hin. refute_row Hin no_rfqs_spec.
Qed.

Lemma get_rfq_response_days_zero : get_rfq_response_days db scorecard = Ok 0%Q.
Proof.
  unfold get_rfq_response_days. rfq_query.
  intros [[[[rfq_item sq_item] sq] rfq_sup] rfq] Hin. refute_row Hin no_rfqs_spec.
Qed.

End WithoutActivity.

Lemma no_matching_rows_split db scorecard :
  no_matching_rows db scorecard = true ->
  no_order_lines db scorecard = true /\ no_orders db scorecard = true
  /\ no_receipt_lines db scorecard = true /\ no_rfqs db scorecard = true.
Proof.
  unfold no_matching_rows. intros H.
  repeat (apply andb_prop in H; destruct H as [H ?]). auto.
Qed.

(** C1, as the code has it: for a scorecard whose supplier exists and a
    store with no order line, order, receipt line or request for quotation of
    that supplier in the period, every metric of the catalogue other than
    [get_total_workdays] and the four manual score aggregates returns the
    number 0; [get_total_workdays] returns the length of the period in
    days. *)
Theorem query_metrics_zero_without_activity
  (db : database) (scorecard : Scorecard) :
  supplier_exists db scorecard = true ->
  no_matching_rows db scorecard = true ->
  (forall name f,
     In (name, f) catalogue ->
     name <> "get_total_workdays" ->
     ~ In name (map fst score_metrics) ->
     f db scorecard = Ok 0%Q)
  /\ (forall f,
        In ("get_total_workdays", f) catalogue ->
        f db scorecard
        = Ok (inject_Z (toordinal (end_date scorecard)
                        - toordinal (start_date scorecard)))).
Proof.
  intros Hex Hno.
  destruct (no_matching_rows_split _ _ Hno) as (Hpo & Hord & Hpr & Hrfq).
  split.
  - intros name f Hin Hwd Hscore.
    destruct Hin as [Hin | Hin]; [injection Hin as <- _; congruence |].
    apply in_app_or in Hin. destruct Hin as [Hin | Hin].
    + cbn in Hin.
      repeat (destruct Hin as [Hin | Hin];
              [injection Hin as _ <-; try apply counted_zero;
               first [ apply get_item_workdays_zero
                     | apply get_total_cost_of_shipments_zero
                     | apply get_cost_of_delayed_shipments_zero
                     | apply get_cost_of_on_time_shipments_zero
                     | apply get_total_days_late_zero
                     | apply get_on_time_shipments_zero
                     | apply get_late_shipments_zero
                     | apply get_total_received_zero
                     | apply get_total_received_amount_zero
                     | apply get_total_received_items_zero
                     | apply get_total_rejected_amount_zero
                     | apply get_total_rejected_items_zero
                     | apply get_total_accepted_amount_zero
                     | apply get_total_accepted_items_zero
                     | apply get_total_shipments_zero
                     | apply get_ordered_qty_zero
                     | apply get_rfq_total_number_zero
                     | apply get_rfq_total_items_zero
                     | apply get_sq_total_number_zero
                     | apply get_sq_total_items_zero
                     | apply get_rfq_response_days_zero ]; assumption |]).
      contradiction.
    + exfalso. apply Hscore. apply (in_map fst) in Hin. exact Hin.
  - intros f Hin.
    destruct Hin as [Hin | Hin]; [injection Hin as <-; reflexivity |].
    exfalso. apply (in_map fst) in Hin. cbn in Hin.
    repeat (destruct Hin as [Hin | Hin]; [discriminate Hin |]).
    contradiction.
Qed.

(** Supplier S1 in January 2024 with an empty store: no shipments, none on
    time, no days late. *)
Lemma query_metrics_zero_without_activity_witness :
  supplier_exists store_without_activity (january_2024 "S1") = true
  /\ no_matching_rows store_without_activity (january_2024 "S1") = true
  /\ counted get_total_shipments store_without_activity (january_2024 "S1") = Ok 0%Q
  /\ counted get_on_time_shipments store_without_activity (january_2024 "S1") = Ok 0%Q
  /\ get_total_days_late store_without_activity (january_2024 "S1") = Ok 0%Q.
Proof.
  assert (Hex : supplier_exists store_without_activity (january_2024 "S1") = true)
    by reflexivity.
  assert (Hno : no_matching_rows store_without_activity (january_2024 "S1") = true)
    by reflexivity.
  destruct (query_metrics_zero_without_activity _ _ Hex Hno) as [Hzero _].
  split; [exact Hex |]. split; [exact Hno |].
  split; [| split].
  - apply (Hzero "get_total_shipments").
    + cbn. tauto.
    + discriminate.
    + cbn. intuition discriminate.
  - apply (Hzero "get_on_time_shipments").
    + cbn. tauto.
    + discriminate.
    + cbn. intuition discriminate.
  - apply (Hzero "get_total_days_late").
    + cbn. tauto.
    + discriminate.
    + cbn. intuition discriminate.
Defined.

(** C1 as stated fails for [get_total_workdays]: supplier S1, January 2024,
    nothing recorded, and the metric is 30. *)
Lemma get_total_workdays_without_activity :
  supplier_exists store_without_activity (january_2024 "S1") = true
  /\ no_matching_rows store_without_activity (january_2024 "S1") = true
  /\ exists f,
       In ("get_total_workdays", f) catalogue
       /\ f store_without_activity (january_2024 "S1") = Ok 30%Q
       /\ f store_without_activity (january_2024 "S1") <> Ok 0%Q.
Proof.
  split; [reflexivity |]. split; [reflexivity |].
  eexists. split; [left; reflexivity |].
  split; [reflexivity | discriminate].
Qed.

(** ** The path validator *)

Lemma existsb_eqb_In (x : string) (l : list string) :
  existsb (String.eqb x) l = true <-> In x l.
Proof.
  rewrite existsb_exists. split.
  - intros (y & Hin & Heq). apply String.eqb_eq in Heq. now subst.
  - intros Hin. exists x. split; [exact Hin | apply String.eqb_refl].
Qed.

Lemma append_empty_r (s : string) : (s ++ "")%string = s.
Proof. induction s as [| c s IH]; cbn; [reflexivity | now rewrite IH]. Qed.

Lemma issubclass_AttributeError (c : exn_class) :
  issubclass c AttributeError = true <-> c = AttributeError.
Proof. destruct c; cbn; split; intros H; congruence. Qed.

Lemma metric_names_have_no_dot name :
  In name metric_names -> contains_dot name = false.
Proof.
  intros Hin.
  assert (Hall : forallb (fun n => negb (contains_dot n)) metric_names = true)
    by (vm_compute; reflexivity).
  rewrite forallb_forall in Hall. apply Hall in Hin.
  now apply negb_true_iff in Hin.
Qed.

Section PathValidatorFacts.

Variable import_string_path : string -> result unit.
Variable translate : string -> string.
Variable module_object_attrs : list string.

Lemma bare_path_found path :
  contains_dot path = false ->
  In path (module_level_names ++ module_object_attrs) ->
  validate_path_exists import_string_path translate module_object_attrs path = Ok tt.
Proof.
  intros Hdot Hin. unfold validate_path_exists, hasattr_module.
  rewrite Hdot. apply existsb_eqb_In in Hin. rewrite Hin. reflexivity.
Qed.

Lemma bare_path_not_found path :
  contains_dot path = false ->
  ~ In path (module_level_names ++ module_object_attrs) ->
  validate_path_exists import_string_path translate module_object_attrs path
  = Raise (mk_exn VariablePathNotFound
             (translate ("Could not find path for " ++ path)%string)).
Proof.
  intros Hdot Hin. unfold validate_path_exists, hasattr_module.
  rewrite Hdot.
  destruct (existsb _ _) eqn:Hex; [| reflexivity].
  apply existsb_eqb_In in Hex. contradiction.
Qed.

Lemma dotted_path_resolved path u :
  contains_dot path = true ->
  import_string_path path = Ok u ->
  validate_path_exists import_string_path translate module_object_attrs path = Ok tt.
Proof.
  intros Hdot Hok. unfold validate_path_exists.
  rewrite Hdot, Hok. reflexivity.
Qed.

Lemma dotted_path_attribute_error path e :
  contains_dot path = true ->
  import_string_path path = Raise e ->
  exn_type e = AttributeError ->
  validate_path_exists import_string_path translate module_object_attrs path
  = Raise (mk_exn VariablePathNotFound
             (translate ("Could not find path for " ++ path)%string)).
Proof.
  intros Hdot Hraise Hattr. unfold validate_path_exists.
  rewrite Hdot, Hraise, Hattr. reflexivity.
Qed.

Lemma dotted_path_other_error path e :
  contains_dot path = true ->
  import_string_path path = Raise e ->
  exn_type e <> AttributeError ->
  validate_path_exists import_string_path translate module_object_attrs path = Raise e.
Proof.
  intros Hdot Hraise Hattr. unfold validate_path_exists.
  rewrite Hdot, Hraise.
  destruct (issubclass (exn_type e) AttributeError) eqn:Hsub; [| reflexivity].
  apply issubclass_AttributeError in Hsub. contradiction.
Qed.

(** C5, as the code has it: a path without a dot is accepted exactly when it
    names an attribute of the module, which every metric of the catalogue is
    and so are the imported names and the classes; every other bare name
    raises the Unresolvable Variable Path error. *)
Theorem bare_path_accepted_iff_module_attribute :
  (forall name,
     In name metric_names ->
     validate_path_exists import_string_path translate module_object_attrs name
     = Ok tt)
  /\ (forall path,
        contains_dot path = false ->
        (validate_path_exists import_string_path translate module_object_attrs path
         = Ok tt
         <-> In path (module_level_names ++ module_object_attrs))
        /\ (~ In path (module_level_names ++ module_object_attrs) ->
            validate_path_exists import_string_path translate module_object_attrs path
            = Raise (mk_exn VariablePathNotFound
                       (translate ("Could not find path for " ++ path)%string)))).
Proof.
  split.
  - intros name Hin. apply bare_path_found.
    + now apply metric_names_have_no_dot.
    + apply in_or_app. left. unfold module_level_names.
      apply in_or_app. now right.
  - intros path Hdot. split; [split |].
    + intros Hok.
      destruct (existsb (String.eqb path) (module_level_names ++ module_object_attrs))
        eqn:Hex; [now apply existsb_eqb_In |].
      assert (Hnot : ~ In path (module_level_names ++ module_object_attrs)).
      { intros Hin. apply existsb_eqb_In in Hin. congruence. }
      pose proof (bare_path_not_found _ Hdot Hnot) as Hraise.
      congruence.
    + now apply bare_path_found.
    + now apply bare_path_not_found.
Qed.

(** C6, as the code has it: a path with a dot is handed to the import
    helper; when the helper resolves it the path is accepted, and when the
    helper raises [AttributeError] the validator raises the Unresolvable
    Variable Path error with the translation of
    ["Could not find path for " + path], which contains the path when the
    message is left untranslated. *)
Theorem dotted_path_attribute_error_surfaced (path : string) :
  contains_dot path = true ->
  (forall u,
     import_string_path path = Ok u ->
     validate_path_exists import_string_path translate module_object_attrs path
     = Ok tt)
  /\ (forall e,
        import_string_path path = Raise e ->
        exn_type e = AttributeError ->
        exists msg,
          validate_path_exists import_string_path translate module_object_attrs path
          = Raise (mk_exn VariablePathNotFound msg)
          /\ msg = translate ("Could not find path for " ++ path)%string
          /\ (translate ("Could not find path for " ++ path)%string
              = ("Could not find path for " ++ path)%string ->
              contains msg path)).
Proof.
  intros Hdot. split.
  - intros u Hok. exact (dotted_path_resolved _ _ Hdot Hok).
  - intros e Hraise Hattr. eexists. split; [| split; [reflexivity |]].
    + exact (dotted_path_attribute_error _ _ Hdot Hraise Hattr).
    + intros ->. exists "Could not find path for ", "".
      rewrite append_empty_r. reflexivity.
Qed.

(** C10: for a path with a dot on which the import helper raises [e], the
    validator raises the Unresolvable Variable Path error when [e] is an
    [AttributeError], and raises [e] itself, unchanged, when it is not; so
    unless the helper's own exception is of that class, the Unresolvable
    Variable Path error is raised exactly for [AttributeError]. *)
Theorem only_attribute_error_is_converted (path : string) (e : exn) :
  contains_dot path = true ->
  import_string_path path = Raise e ->
  (exn_type e = AttributeError ->
   validate_path_exists import_string_path translate module_object_attrs path
   = Raise (mk_exn VariablePathNotFound
              (translate ("Could not find path for " ++ path)%string)))
  /\ (exn_type e <> AttributeError ->
      validate_path_exists import_string_path translate module_object_attrs path
      = Raise e)
  /\ (exn_type e <> VariablePathNotFound ->
      ((exists msg,
          validate_path_exists import_string_path translate module_object_attrs path
          = Raise (mk_exn VariablePathNotFound msg))
       <-> exn_type e = AttributeError)).
Proof.
  intros Hdot Hraise. split; [| split].
  - intros Hattr. exact (dotted_path_attribute_error _ _ Hdot Hraise Hattr).
  - intros Hattr. exact (dotted_path_other_error _ _ Hdot Hraise Hattr).
  - intros Hvpnf. split.
    + intros (msg & Hmsg).
      destruct (exn_class_eqb (exn_type e) AttributeError) eqn:Heq.
      * destruct (exn_type e); cbn in Heq; congruence.
      * assert (Hattr : exn_type e <> AttributeError)
          by (intros Heq'; rewrite Heq' in Heq; discriminate).
        pose proof (dotted_path_other_error _ _ Hdot Hraise Hattr) as Hsame.
        rewrite Hsame in Hmsg.
        injection Hmsg as ->. cbn in Hvpnf. congruence.
    + intros Hattr. eexists.
      exact (dotted_path_attribute_error _ _ Hdot Hraise Hattr).
Qed.

End PathValidatorFacts.

(** ["get_total_workdays"] validates; ["not_a_real_function"] does not. *)
Lemma bare_path_accepted_iff_module_attribute_witness :
  validate_path_exists import_of_unknown_module untranslated module_dunder_names
    "get_total_workdays" = Ok tt
  /\ contains_dot "not_a_real_function" = false
  /\ ~ In "not_a_real_function" (module_level_names ++ module_dunder_names)
  /\ validate_path_exists import_of_unknown_module untranslated module_dunder_names
       "not_a_real_function"
     = Raise (mk_exn VariablePathNotFound "Could not find path for not_a_real_function").
Proof.
  destruct (bare_path_accepted_iff_module_attribute import_of_unknown_module
              untranslated module_dunder_names) as [Hmetric Hbare].
  assert (Hdot : contains_dot "not_a_real_function" = false) by reflexivity.
  assert (Hnot : ~ In "not_a_real_function" (module_level_names ++ module_dunder_names)).
  { intros Hin. apply existsb_eqb_In in Hin. vm_compute in Hin. discriminate. }
  split; [| split; [exact Hdot | split; [exact Hnot |]]].
  - apply Hmetric. apply existsb_eqb_In. vm_compute. reflexivity.
  - exact (proj2 (Hbare _ Hdot) Hnot).
Defined.

(** C5 as stated fails for ["sys"]: it is no metric of the catalogue, and the
    validator accepts it, whatever other attributes the module object has. *)
Lemma bare_path_sys_accepted :
  contains_dot "sys" = false
  /\ ~ In "sys" metric_names
  /\ validate_path_exists import_of_unknown_module untranslated [] "sys" = Ok tt.
Proof.
  split; [reflexivity |]. split; [| reflexivity].
  intros Hin. apply existsb_eqb_In in Hin. vm_compute in Hin. discriminate.
Qed.

(** The helper finds no attribute [nothing] in [erpnext]. *)
Lemma dotted_path_attribute_error_surfaced_witness :
  contains_dot "erpnext.nothing" = true
  /\ validate_path_exists import_of_unknown_attribute untranslated module_dunder_names
       "erpnext.nothing"
     = Raise (mk_exn VariablePathNotFound "Could not find path for erpnext.nothing")
  /\ contains "Could not find path for erpnext.nothing" "erpnext.nothing".
Proof.
  assert (Hdot : contains_dot "erpnext.nothing" = true) by reflexivity.
  destruct (proj2 (dotted_path_attribute_error_surfaced import_of_unknown_attribute
                     untranslated module_dunder_names "erpnext.nothing" Hdot)
              _ eq_refl eq_refl) as (msg & Hraise & Hmsg & Hcontains).
  split; [exact Hdot |]. split.
  - rewrite Hraise, Hmsg. reflexivity.
  - specialize (Hcontains eq_refl). rewrite Hmsg in Hcontains. exact Hcontains.
Defined.

(** C6 as stated fails when the helper cannot import the module of the path:
    its [ModuleNotFoundError] leaves the validator as it is, and no
    Unresolvable Variable Path error is raised. *)
Lemma dotted_path_import_error_propagates :
  contains_dot "nomodule.attr" = true
  /\ import_of_unknown_module "nomodule.attr"
     = Raise (mk_exn ModuleNotFoundError "No module named 'nomodule'")
  /\ validate_path_exists import_of_unknown_module untranslated module_dunder_names
       "nomodule.attr"
     = Raise (mk_exn ModuleNotFoundError "No module named 'nomodule'")
  /\ forall msg,
       validate_path_exists import_of_unknown_module untranslated module_dunder_names
         "nomodule.attr"
       <> Raise (mk_exn VariablePathNotFound msg).
Proof.
  repeat split. intros msg. cbn. discriminate.
Qed.

(** The helper cannot import [nomodule]: its exception is raised as it is. *)
Lemma only_attribute_error_is_converted_witness :
  contains_dot "nomodule.attr" = true
  /\ validate_path_exists import_of_unknown_module untranslated module_dunder_names
       "nomodule.attr"
     = Raise (mk_exn ModuleNotFoundError "No module named 'nomodule'").
Proof.
  assert (Hdot : contains_dot "nomodule.attr" = true) by reflexivity.
  split; [exact Hdot |].
  apply (only_attribute_error_is_converted import_of_unknown_module untranslated
           module_dunder_names "nomodule.attr" _ Hdot eq_refl).
  discriminate.
Defined.

(** ** Days late *)

Lemma or_zero_coalesce (v : option Q) : (or_zero v == coalesce v)%Q.
Proof.
  destruct v as [q |]; cbn; [| reflexivity].
  destruct (Qeq_bool q 0) eqn:Hz; [| reflexivity].
  apply Qeq_bool_eq in Hz. now symmetry.
Qed.

(** C7: [get_total_days_late] returns, and it does return for a scorecard
    whose supplier exists,
    the sum of the two aggregates, each taken as 0 over no rows: (1) over the
    confirmed receipt lines posted after the schedule date of their order
    line, the days from schedule date to posting date times the quantity
    received, and (2) over the order lines not fully received, the days from
    schedule date to the end of the period times the quantity still to be
    received. *)
Theorem get_total_days_late_is_sum_of_two_aggregates
  (db : database) (scorecard : Scorecard) :
  (forall total,
     get_total_days_late db scorecard = Ok total ->
     (total == coalesce (received_late_days db scorecard)
               + coalesce (missed_late_days db scorecard))%Q)
  /\ (supplier_exists db scorecard = true ->
      exists total, get_total_days_late db scorecard = Ok total).
Proof.
  destruct (supplier_exists db scorecard) eqn:Hex.
  2: { split; [| discriminate].
       destruct (get_doc_Supplier_missing _ _ Hex) as (e & Hdoc & _).
       unfold get_total_days_late. rewrite Hdoc. cbn [bind]. discriminate. }
  destruct (get_doc_Supplier_found _ _ Hex) as (doc & Hdoc & Hname).
  unfold get_total_days_late. rewrite Hdoc. cbn [bind].
  split; [| intros _; eexists; reflexivity].
  intros total Htotal. injection Htotal as <-.
  rewrite !or_zero_coalesce, Qplus_comm.
  unfold received_late_days, missed_late_days, select.
  rewrite (filter_ext (received_late scorecard)
             (fun '(po_item, pr_item, po, pr) =>
                String.eqb (PO.supplier po) (Supplier.name doc)
                && BETWEEN (POI.schedule_date po_item) (start_date scorecard)
                     (end_date scorecard)
                && date_ltb (POI.schedule_date po_item) (PR.posting_date pr)
                && (PRI.docstatus pr_item =? 1)
                && eq_nullable (PRI.purchase_order_item pr_item) (POI.name po_item)
                && String.eqb (POI.parent po_item) (PO.name po)
                && String.eqb (PRI.parent pr_item) (PR.name pr))).
  2: { intros [[[po_item pr_item] po] pr]. unfold received_late.
       rewrite Hname. btauto. }
  rewrite (filter_ext (not_fully_received scorecard)
             (fun '(po_item, po) =>
                String.eqb (PO.supplier po) (Supplier.name doc)
                && Qlt_bool (POI.received_qty po_item) (POI.qty po_item)
                && BETWEEN (POI.schedule_date po_item) (start_date scorecard)
                     (end_date scorecard)
                && String.eqb (POI.parent po_item) (PO.name po))).
  2: { intros [po_item po]. unfold not_fully_received. rewrite Hname. btauto. }
  reflexivity.
Qed.

(** Three days late for 10 units received, ten days for 6 units missing. *)
Lemma get_total_days_late_is_sum_of_two_aggregates_witness :
  supplier_exists store_with_late_and_open_lines (january_2024 "S1") = true
  /\ get_total_days_late store_with_late_and_open_lines (january_2024 "S1") = Ok 90%Q
  /\ received_late_days store_with_late_and_open_lines (january_2024 "S1") = Some 30%Q
  /\ missed_late_days store_with_late_and_open_lines (january_2024 "S1") = Some 60%Q
  /\ (90 == coalesce (received_late_days store_with_late_and_open_lines
                        (january_2024 "S1"))
            + coalesce (missed_late_days store_with_late_and_open_lines
                          (january_2024 "S1")))%Q.
Proof.
  assert (Hex : supplier_exists store_with_late_and_open_lines (january_2024 "S1")
                = true) by reflexivity.
  assert (Hvalue : get_total_days_late store_with_late_and_open_lines
                     (january_2024 "S1") = Ok 90%Q) by (vm_compute; reflexivity).
  split; [exact Hex |]. split; [exact Hvalue |].
  split; [vm_compute; reflexivity |]. split; [vm_compute; reflexivity |].
  exact (proj1 (get_total_days_late_is_sum_of_two_aggregates
                  store_with_late_and_open_lines (january_2024 "S1")) _ Hvalue).
Defined.

(** * Further properties *)

(** ** A missing Supplier document *)

(** X1: with no Supplier document for the scorecard's supplier, every query
    metric but [get_ordered_qty] raises [DoesNotExistError], the derived
    metrics included; [get_ordered_qty], which fetches no document, returns a
    number all the same. *)
Theorem missing_supplier_raises (db : database) (scorecard : Scorecard) :
  supplier_exists db scorecard = false ->
  (forall name f,
     In (name, f) query_metrics ->
     name <> "get_ordered_qty" ->
     exists e, f db scorecard = Raise e /\ exn_type e = DoesNotExistError)
  /\ (exists qty, get_ordered_qty db scorecard = Ok qty).
Proof.
  intros Hex. split; [| eexists; reflexivity].
  destruct (get_doc_Supplier_missing _ _ Hex) as (e & Hdoc & Htype).
  intros name f Hin Hname. exists e. split; [| exact Htype].
  cbn in Hin.
  repeat (destruct Hin as [Hin | Hin];
          [injection Hin as Hn <-; try (symmetry in Hn; contradiction);
           cbv [counted get_item_workdays get_total_cost_of_shipments
                get_cost_of_delayed_shipments get_cost_of_on_time_shipments
                get_total_days_late get_on_time_shipments get_late_shipments
                get_total_received get_total_received_amount
                get_total_received_items get_total_rejected_amount
                get_total_rejected_items get_total_accepted_amount
                get_total_accepted_items get_total_shipments
                get_rfq_total_number get_rfq_total_items get_sq_total_number
                get_sq_total_items get_rfq_response_days];
           rewrite Hdoc; reflexivity |]).
  contradiction.
Qed.

(** No Supplier S9 in the store: the shipment count raises. *)
Lemma missing_supplier_raises_witness :
  supplier_exists store_without_activity (january_2024 "S9") = false
  /\ exists e,
       counted get_total_shipments store_without_activity (january_2024 "S9")
       = Raise e
       /\ exn_type e = DoesNotExistError.
Proof.
  assert (Hex : supplier_exists store_without_activity (january_2024 "S9") = false)
    by reflexivity.
  split; [exact Hex |].
  apply (proj1 (missing_supplier_raises _ _ Hex) "get_total_shipments").
  - cbn. tauto.
  - discriminate.
Defined.

(** ** Periods *)

Lemma BETWEEN_inverted d scorecard :
  inverted scorecard = true ->
  BETWEEN d (start_date scorecard) (end_date scorecard) = false.
Proof.
  unfold inverted, BETWEEN, date_ltb, date_leb. intros Hinv.
  apply Z.ltb_lt in Hinv. apply not_true_is_false. intros H.
  apply andb_prop in H. destruct H as [H1 H2].
  apply Z.leb_le in H1, H2. lia.
Qed.

Lemma inverted_no_matching_rows db scorecard :
  inverted scorecard = true -> no_matching_rows db scorecard = true.
Proof.
  intros Hinv. unfold no_matching_rows, no_order_lines, no_orders,
    no_receipt_lines, no_rfqs.
  repeat (apply andb_true_intro; split); apply forallb_forall.
  - intros [po_item po] _. rewrite (BETWEEN_inverted _ _ Hinv).
    now rewrite andb_false_r.
  - intros po _. rewrite (BETWEEN_inverted _ _ Hinv). now rewrite andb_false_r.
  - intros [pr_item pr] _. rewrite (BETWEEN_inverted _ _ Hinv).
    now rewrite andb_false_r.
  - intros [rfq_sup rfq] _. rewrite (BETWEEN_inverted _ _ Hinv).
    now rewrite andb_false_r.
Qed.

(** The query metrics of a store in which nothing matches the period. *)
Lemma query_metrics_all_zero db scorecard name f :
  supplier_exists db scorecard = true ->
  no_matching_rows db scorecard = true ->
  In (name, f) query_metrics ->
  f db scorecard = Ok 0%Q.
Proof.
  intros Hex Hno Hin.
  destruct (no_matching_rows_split _ _ Hno) as (Hpo & Hord & Hpr & Hrfq).
  cbn in Hin.
  repeat (destruct Hin as [Hin | Hin];
          [injection Hin as _ <-; try apply counted_zero;
           first [ apply get_item_workdays_zero
                 | apply get_total_cost_of_shipments_zero
                 | apply get_cost_of_delayed_shipments_zero
                 | apply get_cost_of_on_time_shipments_zero
                 | apply get_total_days_late_zero
                 | apply get_on_time_shipments_zero
                 | apply get_late_shipments_zero
                 | apply get_total_received_zero
                 | apply get_total_received_amount_zero
                 | apply get_total_received_items_zero
                 | apply get_total_rejected_amount_zero
                 | apply get_total_rejected_items_zero
                 | apply get_total_accepted_amount_zero
                 | apply get_total_accepted_items_zero
                 | apply get_total_shipments_zero
                 | apply get_ordered_qty_zero
                 | apply get_rfq_total_number_zero
                 | apply get_rfq_total_items_zero
                 | apply get_sq_total_number_zero
                 | apply get_sq_total_items_zero
                 | apply get_rfq_response_days_zero ]; assumption |]).
  contradiction.
Qed.

(** X2: for a period that ends before it starts, no row of the store is in
    the period whatever the store holds: every query metric of an existing
    supplier returns 0, while [get_total_workdays] is negative. *)
Theorem inverted_period_selects_nothing (db : database) (scorecard : Scorecard) :
  supplier_exists db scorecard = true ->
  inverted scorecard = true ->
  (forall name f, In (name, f) query_metrics -> f db scorecard = Ok 0%Q)
  /\ get_total_workdays scorecard < 0.
Proof.
  intros Hex Hinv. split.
  - intros name f Hin.
    exact (query_metrics_all_zero _ _ _ _ Hex
             (inverted_no_matching_rows _ _ Hinv) Hin).
  - unfold inverted, date_ltb in Hinv. apply Z.ltb_lt in Hinv.
    unfold get_total_workdays, getdate, sub_days. cbv zeta. lia.
Qed.

(** The late and open order lines of January 2024, asked for the period
    2024-01-31 to 2024-01-01. *)
Lemma inverted_period_selects_nothing_witness :
  supplier_exists store_with_late_and_open_lines inverted_january_2024 = true
  /\ inverted inverted_january_2024 = true
  /\ get_total_days_late store_with_late_and_open_lines inverted_january_2024
     = Ok 0%Q
  /\ get_total_workdays inverted_january_2024 < 0.
Proof.
  assert (Hex : supplier_exists store_with_late_and_open_lines
                  inverted_january_2024 = true) by reflexivity.
  assert (Hinv : inverted inverted_january_2024 = true) by reflexivity.
  destruct (inverted_period_selects_nothing _ _ Hex Hinv) as [Hzero Hneg].
  split; [exact Hex |]. split; [exact Hinv |]. split; [| exact Hneg].
  apply (Hzero "get_total_days_late"). cbn. tauto.
Defined.


Lemma BETWEEN_within d inner outer :
  within inner outer = true ->
  BETWEEN d (start_date inner) (end_date inner) = true ->
  BETWEEN d (start_date outer) (end_date outer) = true.
Proof.
  unfold within, BETWEEN, date_leb. intros Hw Hb.
  apply andb_prop in Hw. destruct Hw as [Hw He].
  apply andb_prop in Hw. destruct Hw as [_ Hs].
  apply andb_prop in Hb. destruct Hb as [H1 H2].
  apply Z.leb_le in Hs, He, H1, H2.
  apply andb_true_intro. split; apply Z.leb_le; lia.
Qed.

Lemma within_supplier inner outer :
  within inner outer = true -> supplier inner = supplier outer.
Proof.
  unfold within. intros Hw.
  apply andb_prop in Hw. destruct Hw as [Hw _].
  apply andb_prop in Hw. destruct Hw as [Hw _].
  now apply String.eqb_eq.
Qed.

Lemma filter_length_le {A : Type} (f g : A -> bool) (l : list A) :
  (forall x, In x l -> f x = true -> g x = true) ->
  (List.length (filter f l) <= List.length (filter g l))%nat.
Proof.
  induction l as [| x l IH]; intros Himp; [cbn; lia |].
  assert (IH' : (List.length (filter f l) <= List.length (filter g l))%nat)
    by (apply IH; intros y Hy; apply Himp; now right).
  cbn. destruct (f x) eqn:Hf.
  - rewrite (Himp x (or_introl eq_refl) Hf). cbn. lia.
  - destruct (g x); cbn; lia.
Qed.

Lemma COUNT_select_le {R A : Type} (e : R -> A) (from : list R) (f g : R -> bool) :
  (forall r, In r from -> f r = true -> g r = true) ->
  or_zero_int (COUNT (select e from f)) <= or_zero_int (COUNT (select e from g)).
Proof.
  intros Himp. unfold or_zero_int, COUNT, select. rewrite !length_map.
  pose proof (filter_length_le f g from Himp).
  destruct (Z.of_nat (List.length (filter f from)) =? 0) eqn:E1;
    destruct (Z.of_nat (List.length (filter g from)) =? 0) eqn:E2;
    rewrite ?Z.eqb_eq, ?Z.eqb_neq in *; lia.
Qed.

Ltac widen_where Hw between_wider :=
  split_where Hw;
  repeat first [ assumption
               | eapply between_wider; assumption
               | apply andb_true_intro; split ].


Ltac within_count f Hsup Hn Hm :=
  unfold f in Hn, Hm;
  rewrite Hsup in Hn;
  match type of Hm with
  | context [get_doc_Supplier ?db ?name] =>
      destruct (get_doc_Supplier db name) as [doc | e];
      cbn [bind] in Hn, Hm; try discriminate
  end;
  injection Hn as <-; injection Hm as <-.

Section CountsWithin.

Variable db : database.
Variables inner outer : Scorecard.
Hypothesis Hw : within inner outer = true.
Variables n m : Z.

Lemma get_total_shipments_within :
  get_total_shipments db inner = Ok n -> get_total_shipments db outer = Ok m ->
  n <= m.
Proof.
  intros Hn Hm. within_count get_total_shipments (within_supplier _ _ Hw) Hn Hm.
  apply COUNT_select_le. intros [po_item po] _ H. widen_where H (fun d => BETWEEN_within d inner outer Hw).
Qed.

Lemma get_on_time_shipments_within :
  get_on_time_shipments db inner = Ok n -> get_on_time_shipments db outer = Ok m ->
  n <= m.
Proof.
  intros Hn Hm. within_count get_on_time_shipments (within_supplier _ _ Hw) Hn Hm.
  apply COUNT_select_le. intros [[[po_item pr_item] po] pr] _ H.
  widen_where H (fun d => BETWEEN_within d inner outer Hw).
Qed.

Lemma get_total_received_within :
  get_total_received db inner = Ok n -> get_total_received db outer = Ok m ->
  n <= m.
Proof.
  intros Hn Hm. within_count get_total_received (within_supplier _ _ Hw) Hn Hm.
  unfold received_lines, select. rewrite !map_id.
  apply (COUNT_select_le (fun '(pr_item, pr) => PRI.base_amount pr_item)).
  intros [pr_item pr] _ H. widen_where H (fun d => BETWEEN_within d inner outer Hw).
Qed.

Lemma get_rfq_total_number_within :
  get_rfq_total_number db inner = Ok n -> get_rfq_total_number db outer = Ok m ->
  n <= m.
Proof.
  intros Hn Hm. within_count get_rfq_total_number (within_supplier _ _ Hw) Hn Hm.
  apply COUNT_select_le. intros [[rfq_item rfq_sup] rfq] _ H. widen_where H (fun d => BETWEEN_within d inner outer Hw).
Qed.

Lemma get_rfq_total_items_within :
  get_rfq_total_items db inner = Ok n -> get_rfq_total_items db outer = Ok m ->
  n <= m.
Proof.
  intros Hn Hm. within_count get_rfq_total_items (within_supplier _ _ Hw) Hn Hm.
  apply COUNT_select_le. intros [[rfq_item rfq_sup] rfq] _ H. widen_where H (fun d => BETWEEN_within d inner outer Hw).
Qed.

Lemma get_sq_total_number_within :
  get_sq_total_number db inner = Ok n -> get_sq_total_number db outer = Ok m ->
  n <= m.
Proof.
  intros Hn Hm. within_count get_sq_total_number (within_supplier _ _ Hw) Hn Hm.
  apply COUNT_select_le. intros [[[[rfq_item sq_item] rfq_sup] rfq] sq] _ H.
  widen_where H (fun d => BETWEEN_within d inner outer Hw).
Qed.

Lemma get_sq_total_items_within :
  get_sq_total_items db inner = Ok n -> get_sq_total_items db outer = Ok m ->
  n <= m.
Proof.
  intros Hn Hm. within_count get_sq_total_items (within_supplier _ _ Hw) Hn Hm.
  apply COUNT_select_le. intros [[[[rfq_item sq_item] sq] rfq_sup] rfq] _ H.
  widen_where H (fun d => BETWEEN_within d inner outer Hw).
Qed.

End CountsWithin.

(** X3: widening the period never lowers a count: for a period within
    another, of the same supplier, each of the seven counting metrics returns
    at most what it returns for the wider period. *)
Theorem counts_grow_with_the_period
  (db : database) (inner outer : Scorecard) :
  within inner outer = true ->
  forall f n m,
    In f count_metrics ->
    f db inner = Ok n -> f db outer = Ok m -> n <= m.
Proof.
  intros Hw f n m Hin.
  destruct Hin as [<- | [<- | [<- | [<- | [<- | [<- | [<- | []]]]]]]].
  - now apply get_total_shipments_within.
  - now apply get_on_time_shipments_within.
  - now apply get_total_received_within.
  - now apply get_rfq_total_number_within.
  - now apply get_rfq_total_items_within.
  - now apply get_sq_total_number_within.
  - now apply get_sq_total_items_within.
Qed.

(** The order line scheduled for 2024-01-05 and the one for 2024-01-21: one
    shipment in the first half of January, two in the whole month. *)
Lemma counts_grow_with_the_period_witness :
  within (early_january_2024 "S1") (january_2024 "S1") = true
  /\ get_total_shipments store_with_late_and_open_lines (early_january_2024 "S1")
     = Ok 1
  /\ get_total_shipments store_with_late_and_open_lines (january_2024 "S1") = Ok 2
  /\ 1 <= 2.
Proof.
  assert (Hw : within (early_january_2024 "S1") (january_2024 "S1") = true)
    by reflexivity.
  assert (H1 : get_total_shipments store_with_late_and_open_lines
                 (early_january_2024 "S1") = Ok 1) by reflexivity.
  assert (H2 : get_total_shipments store_with_late_and_open_lines
                 (january_2024 "S1") = Ok 2) by reflexivity.
  split; [exact Hw |]. split; [exact H1 |]. split; [exact H2 |].
  apply (counts_grow_with_the_period store_with_late_and_open_lines _ _ Hw
           get_total_shipments 1 2);
    [left; reflexivity | exact H1 | exact H2].
Defined.

(** ** Requests for quotation and quotations *)

(** X4: [get_rfq_total_number] and [get_rfq_total_items] run the same query
    and count a column that is never [NULL]: they return the same number (or
    raise the same exception) for every store and scorecard, the number of
    request items rather than of requests. *)
Theorem rfq_number_equals_rfq_items (db : database) (scorecard : Scorecard) :
  get_rfq_total_number db scorecard = get_rfq_total_items db scorecard.
Proof.
  unfold get_rfq_total_number, get_rfq_total_items.
  destruct (get_doc_Supplier db (supplier scorecard)) as [doc | e];
    cbn [bind]; [| reflexivity].
  unfold COUNT, select. rewrite !length_map. reflexivity.
Qed.

Lemma list_sum_cons (x : nat) (l : list nat) :
  list_sum (x :: l) = (x + list_sum l)%nat.
Proof. reflexivity. Qed.

Lemma length_filter_pairs {A B : Type} (p : A * B -> bool) (x : A) (ys : list B) :
  List.length (filter p (map (pair x) ys))
  = List.length (filter (fun y => p (x, y)) ys).
Proof.
  induction ys as [| y ys IH]; [reflexivity |].
  cbn. destruct (p (x, y)); cbn; now rewrite IH.
Qed.

Lemma length_filter_cross {A B : Type} (p : A * B -> bool)
  (xs : list A) (ys : list B) :
  List.length (filter p (xs ** ys))
  = list_sum (map (fun x => List.length (filter (fun y => p (x, y)) ys)) xs).
Proof.
  unfold cross. induction xs as [| x xs IH]; [reflexivity |].
  cbn [list_prod map]. rewrite list_sum_cons.
  rewrite filter_app, length_app, length_filter_pairs, IH. reflexivity.
Qed.

Lemma list_sum_map_ext {A : Type} (f g : A -> nat) (l : list A) :
  (forall x, f x = g x) -> list_sum (map f l) = list_sum (map g l).
Proof.
  intros Hext. induction l as [| x l IH]; [reflexivity |].
  cbn [map]. now rewrite !list_sum_cons, Hext, IH.
Qed.

Lemma list_sum_map_add {A : Type} (f g : A -> nat) (l : list A) :
  list_sum (map (fun x => f x + g x)%nat l)
  = (list_sum (map f l) + list_sum (map g l))%nat.
Proof.
  induction l as [| x l IH]; [reflexivity |].
  cbn [map]. rewrite !list_sum_cons, IH. lia.
Qed.

Lemma list_sum_map_zero {A : Type} (l : list A) :
  list_sum (map (fun _ => 0%nat) l) = 0%nat.
Proof. induction l as [| x l IH]; [reflexivity | exact IH]. Qed.

(** The order of two nested sums does not matter. *)
Lemma list_sum_swap {A B : Type} (f : A -> B -> nat) (xs : list A) (ys : list B) :
  list_sum (map (fun x => list_sum (map (fun y => f x y) ys)) xs)
  = list_sum (map (fun y => list_sum (map (fun x => f x y) xs)) ys).
Proof.
  induction xs as [| x xs IH].
  - cbn. now rewrite list_sum_map_zero.
  - rewrite (list_sum_map_ext
               (fun y => list_sum (map (fun x0 => f x0 y) (x :: xs)))
               (fun y => (f x y + list_sum (map (fun x0 => f x0 y) xs))%nat))
      by (intros y; reflexivity).
    rewrite list_sum_map_add, <- IH. cbn [map]. now rewrite list_sum_cons.
Qed.

Lemma list_sum_map_cross {A B : Type} (g : A * B -> nat)
  (xs : list A) (ys : list B) :
  list_sum (map g (xs ** ys))
  = list_sum (map (fun x => list_sum (map (fun y => g (x, y)) ys)) xs).
Proof.
  unfold cross. induction xs as [| x xs IH]; [reflexivity |].
  cbn [list_prod map]. rewrite list_sum_cons, map_app, list_sum_app, IH.
  now rewrite map_map.
Qed.

Lemma length_filter_indicator {A : Type} (p : A -> bool) (l : list A) :
  List.length (filter p l)
  = list_sum (map (fun x => if p x then 1 else 0)%nat l).
Proof.
  induction l as [| x l IH]; [reflexivity |].
  cbn [filter map]. rewrite list_sum_cons.
  destruct (p x); cbn [List.length]; rewrite IH; reflexivity.
Qed.

(** Counting the rows of [FROM l, c, d, e] that satisfy a condition is
    counting the rows of [FROM l, e, c, d] that do. *)
Lemma count_from_rotated {L C D E : Type} (p : L * C * D * E -> bool)
  (ls : list L) (cs : list C) (ds : list D) (es : list E) :
  List.length (filter p (ls ** cs ** ds ** es))
  = List.length (filter (fun '(l, e, c, d) => p (l, c, d, e))
                   (ls ** es ** cs ** ds)).
Proof.
  rewrite !length_filter_cross, !list_sum_map_cross.
  apply list_sum_map_ext. intros l.
  rewrite (list_sum_map_ext _
             (fun c => list_sum (map (fun d =>
                list_sum (map (fun e => if p (l, c, d, e) then 1 else 0)%nat es)) ds))).
  2: { intros c. apply list_sum_map_ext. intros d.
       apply length_filter_indicator. }
  rewrite (list_sum_map_ext (fun e => list_sum (map _ cs))
             (fun e => list_sum (map (fun c =>
                list_sum (map (fun d => if p (l, c, d, e) then 1 else 0)%nat ds)) cs))).
  2: { intros e. apply list_sum_map_ext. intros c.
       apply (length_filter_indicator (fun d => p (l, c, d, e))). }
  rewrite (list_sum_map_ext _
             (fun c => list_sum (map (fun e =>
                list_sum (map (fun d => if p (l, c, d, e) then 1 else 0)%nat ds)) es))).
  2: { intros c. apply list_sum_swap. }
  apply list_sum_swap.
Qed.

(** X5: [get_sq_total_number] and [get_sq_total_items] join the same five
    tables, listed in a different order, under the same conditions, and count
    a column that is never [NULL]: they return the same number (or raise the
    same exception) for every store and scorecard, the number of quotation
    items rather than of quotations. *)
Theorem sq_number_equals_sq_items (db : database) (scorecard : Scorecard) :
  get_sq_total_number db scorecard = get_sq_total_items db scorecard.
Proof.
  unfold get_sq_total_number, get_sq_total_items.
  destruct (get_doc_Supplier db (supplier scorecard)) as [doc | e];
    cbn [bind]; [| reflexivity].
  unfold COUNT, select. rewrite !length_map.
  rewrite (count_from_rotated _
             (tabRequest_for_Quotation_Item db ** tabSupplier_Quotation_Item db)).
  do 4 f_equal. apply filter_ext.
  intros [[[[rfq_item sq_item] sq] rfq_sup] rfq]. btauto.
Qed.

(** One request of two items answered by one quotation of two items: the
    number of requests, of request items, of quotations and of quotation
    items are all 2. *)
Example quotation_counts :
  get_rfq_total_number store_with_quotation (january_2024 "S1") = Ok 2
  /\ get_rfq_total_items store_with_quotation (january_2024 "S1") = Ok 2
  /\ get_sq_total_number store_with_quotation (january_2024 "S1") = Ok 2
  /\ get_sq_total_items store_with_quotation (january_2024 "S1") = Ok 2
  /\ get_rfq_response_days store_with_quotation (january_2024 "S1") = Ok 6%Q.
Proof. repeat split; vm_compute; reflexivity. Qed.

(** ** The Supplier Score record *)

Lemma db_get_value_Supplier_Score_found db name :
  db_exists_Supplier_Score db name = true ->
  exists r, db_get_value_Supplier_Score db name = Some r /\ SS.name r = name.
Proof.
  unfold db_exists_Supplier_Score, db_get_value_Supplier_Score. intros Hex.
  destruct (find _ (tabSupplier_Score db)) as [r |] eqn:Hfind.
  - exists r. split; [reflexivity |].
    apply find_some in Hfind. now apply String.eqb_eq.
  - apply existsb_exists in Hex. destruct Hex as (r & Hin & Heq).
    apply (find_none _ _ Hfind) in Hin. congruence.
Qed.

(** X6: each of the four score aggregates returns a number exactly when a
    Supplier Score record exists for the scorecard's supplier; whether a
    Supplier document exists and what the purchasing tables hold play no
    part. *)
Theorem score_aggregates_return_iff_record_exists
  (db : database) (scorecard : Scorecard) (f : database -> Scorecard -> result Q) :
  In f score_aggregates ->
  ((exists score, f db scorecard = Ok score)
   <-> db_exists_Supplier_Score db (supplier scorecard) = true).
Proof.
  intros Hin.
  destruct (db_exists_Supplier_Score db (supplier scorecard)) eqn:Hex.
  - destruct (db_get_value_Supplier_Score_found _ _ Hex) as (r & Hr & _).
    split; [reflexivity |]. intros _.
    destruct Hin as [<- | [<- | [<- | [<- | []]]]];
      unfold get_all_quality_score, get_all_delivery_score, get_all_price_score,
        get_all_customer_satisfaction_score;
      rewrite ?Hex, Hr; cbn [negb bind unpack]; eexists; reflexivity.
  - pose proof (db_get_value_Supplier_Score_missing _ _ Hex) as Hnone.
    split; [| discriminate]. intros (score & Hscore). exfalso.
    destruct Hin as [<- | [<- | [<- | [<- | []]]]];
      unfold get_all_quality_score, get_all_delivery_score, get_all_price_score,
        get_all_customer_satisfaction_score in Hscore;
      rewrite ?Hex, ?Hnone in Hscore; cbn in Hscore; discriminate.
Qed.

(** The record of S2 in a store with no purchasing data. *)
Lemma score_aggregates_return_iff_record_exists_witness :
  In get_all_delivery_score score_aggregates
  /\ db_exists_Supplier_Score store_with_score_for_S2 (supplier (january_2024 "S2"))
     = true
  /\ exists score,
       get_all_delivery_score store_with_score_for_S2 (january_2024 "S2") = Ok score.
Proof.
  assert (Hin : In get_all_delivery_score score_aggregates)
    by (right; left; reflexivity).
  split; [exact Hin |]. split; [reflexivity |].
  apply (score_aggregates_return_iff_record_exists store_with_score_for_S2
           (january_2024 "S2") _ Hin).
  reflexivity.
Defined.

(** ** Signs *)

Lemma fold_Qplus_nonneg (l : list Q) :
  Forall (fun q => 0 <= q)%Q l -> (0 <= fold_right Qplus 0 l)%Q.
Proof.
  induction 1 as [| q l Hq _ IH]; cbn; [apply Qle_refl |].
  replace 0%Q with (0 + 0)%Q by reflexivity. now apply Qplus_le_compat.
Qed.

Lemma or_zero_SUM_nonneg (l : list Q) :
  Forall (fun q => 0 <= q)%Q l -> (0 <= or_zero (SUM l))%Q.
Proof.
  intros Hall. destruct l as [| q l]; [apply Qle_refl |].
  unfold SUM, or_zero.
  destruct (Qeq_bool _ 0); [apply Qle_refl | now apply fold_Qplus_nonneg].
Qed.

Lemma select_Forall {R A : Type} (P : A -> Prop) (e : R -> A)
  (from : list R) (where_ : R -> bool) :
  (forall r, In r from -> where_ r = true -> P (e r)) ->
  Forall P (select e from where_).
Proof.
  intros H. unfold select. apply Forall_forall. intros a Ha.
  apply in_map_iff in Ha. destruct Ha as (r & <- & Hr).
  apply filter_In in Hr. destruct Hr as [Hin Hw]. now apply H.
Qed.

Lemma Qlt_bool_lt (a b : Q) : Qlt_bool a b = true -> (a < b)%Q.
Proof.
  unfold Qlt_bool. intros H. apply negb_true_iff in H.
  apply Qnot_le_lt. intros Hle. apply Qle_bool_iff in Hle. congruence.
Qed.

Lemma days_times_quantity_nonneg (days : Z) (quantity : Q) :
  0 <= days -> (0 <= quantity)%Q -> (0 <= inject_Z days * quantity)%Q.
Proof.
  intros Hd Hq. apply Qmult_le_0_compat; [| exact Hq].
  change 0%Q with (inject_Z 0). now rewrite <- Zle_Qle.
Qed.

Lemma BETWEEN_before_end d lo hi :
  BETWEEN d lo hi = true -> 0 <= DATEDIFF hi d.
Proof.
  unfold BETWEEN, DATEDIFF, date_leb. intros H.
  apply andb_prop in H. destruct H as [_ H]. apply Z.leb_le in H. lia.
Qed.

(** X7: [get_total_days_late] is never negative when no receipt line has a
    negative quantity: a line counts as received late only when posted after
    its schedule date, and an open line is counted for the days from its
    schedule date, which lies in the period, to the end of the period, times
    a positive missing quantity. *)
Theorem get_total_days_late_nonnegative
  (db : database) (scorecard : Scorecard) (total : Q) :
  (forall pr_item, In pr_item (tabPurchase_Receipt_Item db) ->
                   (0 <= PRI.qty pr_item)%Q) ->
  get_total_days_late db scorecard = Ok total ->
  (0 <= total)%Q.
Proof.
  intros Hqty Htotal. unfold get_total_days_late in Htotal.
  destruct (get_doc_Supplier db (supplier scorecard)) as [doc | e];
    cbn [bind] in Htotal; [| discriminate].
  injection Htotal as <-.
  replace 0%Q with (0 + 0)%Q by reflexivity.
  apply Qplus_le_compat; apply or_zero_SUM_nonneg; apply select_Forall.
  - intros [po_item po] _ Hw. split_where Hw.
    apply days_times_quantity_nonneg.
    + eapply BETWEEN_before_end; eassumption.
    + apply Qlt_le_weak. unfold Qminus. apply (proj1 (Qlt_minus_iff _ _)).
      now apply Qlt_bool_lt.
  - intros [[[po_item pr_item] po] pr] Hin Hw. split_in Hin. split_where Hw.
    apply days_times_quantity_nonneg.
    + unfold date_ltb in *. unfold DATEDIFF.
      match goal with H : (_ <? _) = true |- _ => apply Z.ltb_lt in H; lia end.
    + now apply Hqty.
Qed.

(** The line received three days late and the line with 6 units missing. *)
Lemma get_total_days_late_nonnegative_witness :
  (forall pr_item,
     In pr_item (tabPurchase_Receipt_Item store_with_late_and_open_lines) ->
     (0 <= PRI.qty pr_item)%Q)
  /\ get_total_days_late store_with_late_and_open_lines (january_2024 "S1")
     = Ok 90%Q
  /\ (0 <= 90)%Q.
Proof.
  assert (Hqty : forall pr_item,
             In pr_item (tabPurchase_Receipt_Item store_with_late_and_open_lines) ->
             (0 <= PRI.qty pr_item)%Q).
  { intros pr_item [<- | []]. cbn. discriminate. }
  assert (Hvalue : get_total_days_late store_with_late_and_open_lines
                     (january_2024 "S1") = Ok 90%Q) by (vm_compute; reflexivity).
  split; [exact Hqty |]. split; [exact Hvalue |].
  exact (get_total_days_late_nonnegative _ _ _ Hqty Hvalue).
Defined.

(** X8: [get_item_workdays] is never negative when no order line has a
    negative received quantity: only lines with more ordered than received
    are counted, each for the days from its schedule date to the end of the
    period, in which the schedule date lies. *)
Theorem get_item_workdays_nonnegative
  (db : database) (scorecard : Scorecard) (total : Q) :
  (forall po_item, In po_item (tabPurchase_Order_Item db) ->
                   (0 <= POI.received_qty po_item)%Q) ->
  get_item_workdays db scorecard = Ok total ->
  (0 <= total)%Q.
Proof.
  intros Hqty Htotal. unfold get_item_workdays in Htotal.
  destruct (get_doc_Supplier db (supplier scorecard)) as [doc | e];
    cbn [bind] in Htotal; [| discriminate].
  injection Htotal as <-.
  apply or_zero_SUM_nonneg, select_Forall.
  intros [po_item po] Hin Hw. split_in Hin. split_where Hw.
  apply days_times_quantity_nonneg.
  - eapply BETWEEN_before_end; eassumption.
  - apply Qle_trans with (POI.received_qty po_item); [now apply Hqty |].
    apply Qlt_le_weak. now apply Qlt_bool_lt.
Qed.

(** The open line of 10 units scheduled ten days before the end of January. *)
Lemma get_item_workdays_nonnegative_witness :
  (forall po_item,
     In po_item (tabPurchase_Order_Item store_with_late_and_open_lines) ->
     (0 <= POI.received_qty po_item)%Q)
  /\ get_item_workdays store_with_late_and_open_lines (january_2024 "S1")
     = Ok 100%Q
  /\ (0 <= 100)%Q.
Proof.
  assert (Hqty : forall po_item,
             In po_item (tabPurchase_Order_Item store_with_late_and_open_lines) ->
             (0 <= POI.received_qty po_item)%Q).
  { intros po_item [<- | [<- | []]]; cbn; discriminate. }
  assert (Hvalue : get_item_workdays store_with_late_and_open_lines
                     (january_2024 "S1") = Ok 100%Q) by (vm_compute; reflexivity).
  split; [exact Hqty |]. split; [exact Hvalue |].
  exact (get_item_workdays_nonnegative _ _ _ Hqty Hvalue).
Defined.

(** ** Receiving totals *)






Lemma or_zero_int_id (n : Z) : or_zero_int n = n.
Proof.
  unfold or_zero_int. destruct (n =? 0) eqn:Hz; [| reflexivity].
  apply Z.eqb_eq in Hz. now subst.
Qed.

(** X10: when [get_total_received] returns 0, no receipt line of the
    supplier is posted in the period, and each of the six receiving sums
    returns 0. *)
Theorem nothing_received_sums_to_zero
  (db : database) (scorecard : Scorecard) (f : database -> Scorecard -> result Q) :
  get_total_received db scorecard = Ok 0 ->
  In f receiving_totals ->
  f db scorecard = Ok 0%Q.
Proof.
  unfold get_total_received. intros Hcount Hin.
  destruct (get_doc_Supplier db (supplier scorecard)) as [doc | e] eqn:Hdoc;
    cbn [bind] in Hcount; [| discriminate].
  injection Hcount as Hcount. rewrite or_zero_int_id in Hcount.
  unfold COUNT in Hcount. rewrite length_map in Hcount.
  assert (Hnil : received_lines db doc scorecard = [])
    by (apply length_zero_iff_nil; lia).
  destruct Hin as [<- | [<- | [<- | [<- | [<- | [<- | []]]]]]];
    unfold get_total_received_amount, get_total_received_items,
      get_total_rejected_amount, get_total_rejected_items,
      get_total_accepted_amount, get_total_accepted_items;
    rewrite Hdoc; cbn [bind]; rewrite Hnil; reflexivity.
Qed.

(** The receipt of 2024-01-09 asked for the year before. *)
Lemma nothing_received_sums_to_zero_witness :
  get_total_received store_with_rejection
    (mk_scorecard "S1" (mk_date 2023 1 1) (mk_date 2023 12 31)) = Ok 0
  /\ get_total_rejected_amount store_with_rejection
       (mk_scorecard "S1" (mk_date 2023 1 1) (mk_date 2023 12 31)) = Ok 0%Q.
Proof.
  assert (Hcount : get_total_received store_with_rejection
            (mk_scorecard "S1" (mk_date 2023 1 1) (mk_date 2023 12 31)) = Ok 0)
    by reflexivity.
  split; [exact Hcount |].
  apply (nothing_received_sums_to_zero _ _ _ Hcount).
  right. right. left. reflexivity.
Defined.

(** ** Order lines and receipt lines that do not count *)

Lemma select_app {R A : Type} (e : R -> A) (l l' : list R) (where_ : R -> bool) :
  select e (l ++ l') where_ = select e l where_ ++ select e l' where_.
Proof. unfold select. now rewrite filter_app, map_app. Qed.

(** X11: an order line that is not submitted ([docstatus] other than 1)
    changes neither [get_total_shipments] nor
    [get_total_cost_of_shipments] when it is inserted, whatever its schedule
    date, order and amount. *)
Theorem unsubmitted_order_line_is_not_a_shipment
  (db : database) (scorecard : Scorecard) (po_item : POI.row) :
  POI.docstatus po_item <> 1 ->
  get_total_shipments (with_order_line db po_item) scorecard
  = get_total_shipments db scorecard
  /\ get_total_cost_of_shipments (with_order_line db po_item) scorecard
     = get_total_cost_of_shipments db scorecard.
Proof.
  intros Hdraft. apply Z.eqb_neq in Hdraft.
  unfold get_total_shipments, get_total_cost_of_shipments, get_doc_Supplier.
  cbn [with_order_line tabSupplier tabPurchase_Order tabPurchase_Order_Item].
  destruct (find _ (tabSupplier db)) as [doc |]; cbn [bind]; [| split; reflexivity].
  unfold cross. cbn [list_prod]. fold (cross (tabPurchase_Order_Item db)
                                         (tabPurchase_Order db)).
  rewrite !select_app.
  rewrite !(select_nil _ (map _ (tabPurchase_Order db))).
  - split; reflexivity.
  - intros [po_item' po] Hin. apply in_map_iff in Hin.
    destruct Hin as (po' & Heq & _). injection Heq as <- <-.
    rewrite Hdraft. now rewrite andb_false_r.
Qed.

(** A draft line of 5 units added to the order of S1: still one shipment of
    100, while the workdays of open items grow by its 19 days times 5. *)
Lemma unsubmitted_order_line_is_not_a_shipment_witness :
  POI.docstatus draft_order_line <> 1
  /\ get_total_shipments
       (with_order_line (store_with_one_receipt (mk_date 2024 1 4)) draft_order_line)
       (january_2024 "S1") = Ok 1
  /\ get_item_workdays
       (with_order_line (store_with_one_receipt (mk_date 2024 1 4)) draft_order_line)
       (january_2024 "S1") = Ok 95%Q.
Proof.
  assert (Hdraft : POI.docstatus draft_order_line <> 1) by discriminate.
  split; [exact Hdraft |]. split.
  - rewrite (proj1 (unsubmitted_order_line_is_not_a_shipment
                      (store_with_one_receipt (mk_date 2024 1 4))
                      (january_2024 "S1") draft_order_line Hdraft)).
    reflexivity.
  - vm_compute. reflexivity.
Defined.

(** X12: when no receipt line is linked to an order line, nothing counts as
    delivered on time: for an existing supplier [get_on_time_shipments] and
    [get_cost_of_on_time_shipments] return 0, and [get_late_shipments]
    returns what [get_total_shipments] returns. *)
Theorem unlinked_receipts_are_not_deliveries (db : database) (scorecard : Scorecard) :
  (forall pr_item, In pr_item (tabPurchase_Receipt_Item db) ->
                   PRI.purchase_order_item pr_item = None) ->
  supplier_exists db scorecard = true ->
  get_on_time_shipments db scorecard = Ok 0
  /\ get_cost_of_on_time_shipments db scorecard = Ok 0%Q
  /\ exists total,
       get_total_shipments db scorecard = Ok total
       /\ get_late_shipments db scorecard = Ok total.
Proof.
  intros Hunlinked Hex.
  assert (Hon : get_on_time_shipments db scorecard = Ok 0).
  { unfold get_on_time_shipments.
    destruct (get_doc_Supplier_found _ _ Hex) as (doc & -> & _). cbn [bind].
    rewrite select_nil; [reflexivity |].
    intros [[[po_item pr_item] po] pr] Hin. split_in Hin.
    rewrite (Hunlinked pr_item) by assumption. cbn [eq_nullable].
    now rewrite !andb_false_r. }
  split; [exact Hon |]. split.
  - unfold get_cost_of_on_time_shipments.
    destruct (get_doc_Supplier_found _ _ Hex) as (doc & -> & _). cbn [bind].
    rewrite select_nil; [reflexivity |].
    intros [[[po_item pr_item] po] pr] Hin. split_in Hin.
    rewrite (Hunlinked pr_item) by assumption. cbn [eq_nullable].
    now rewrite !andb_false_r.
  - destruct (get_total_shipments_returns _ _ Hex) as (total & Ht).
    exists total. split; [exact Ht |].
    unfold get_late_shipments. rewrite Ht, Hon. cbn [bind].
    now rewrite Z.sub_0_r.
Qed.

(** The receipt of S1 that refers to no order line. *)
Lemma unlinked_receipts_are_not_deliveries_witness :
  (forall pr_item, In pr_item (tabPurchase_Receipt_Item store_with_rejection) ->
                   PRI.purchase_order_item pr_item = None)
  /\ supplier_exists store_with_rejection (january_2024 "S1") = true
  /\ get_total_received store_with_rejection (january_2024 "S1") = Ok 1
  /\ get_on_time_shipments store_with_rejection (january_2024 "S1") = Ok 0.
Proof.
  assert (Hunlinked : forall pr_item,
             In pr_item (tabPurchase_Receipt_Item store_with_rejection) ->
             PRI.purchase_order_item pr_item = None).
  { intros pr_item [<- | []]. reflexivity. }
  assert (Hex : supplier_exists store_with_rejection (january_2024 "S1") = true)
    by reflexivity.
  split; [exact Hunlinked |]. split; [exact Hex |]. split; [reflexivity |].
  exact (proj1 (unlinked_receipts_are_not_deliveries _ _ Hunlinked Hex)).
Defined.

(** ** The shape of a path *)


